(** * spanpaper: the layout engine and compositor of [create_wallpaper.py]

    A shallow embedding of [main()] of [src/create_wallpaper.py].

    The script computes with Python [int]s and [float]s.  Integers are [Z].
    The float arithmetic the script uses is collected in the interface
    [PyFloat], and the engine is written once against it.  Its instance is
    [binary64]: IEEE-754 doubles (Rocq's primitive floats) with CPython's
    exceptions on top, which is what the interpreter executes; every
    definition of the engine evaluates on it.

    Statements about which formula is computed, in which order, and what is
    raised use nothing of the arithmetic but the laws of [PyFloatLaws]; they
    are proved for every instance that meets them, and [binary64] does.
    Statements that depend on how doubles round are stated on [binary64].

    Pillow is not modelled: an image is its size, [Image.open] is a
    parameter of [main], and the calls that come after it (crop, new,
    resize, paste, save) are recorded as the image a run saves, not
    executed.  A real run can also end inside one of these calls; what is
    proved of a run that saved, or that returned, holds of the real runs
    that did. *)

From Stdlib Require Import ZArith List String Bool Lia.
From Stdlib Require Import Floats.
Import ListNotations.

Set Warnings "-inexact-float".

(** ** Exceptions and the error monad *)

(** The built-in exceptions the script can meet. *)
Inductive exn : Set :=
| ZeroDivisionError
| ValueError
| OverflowError
| OSError.

(** A computation that returns or raises. *)
Inductive exc (A : Type) : Type :=
| Ok (a : A)
| Raise (e : exn).

Arguments Ok {A} a.
Arguments Raise {A} e.

Definition bind {A B : Type} (c : exc A) (k : A -> exc B) : exc B :=
  match c with
  | Ok a => k a
  | Raise e => Raise e
  end.

Declare Scope exc_scope.
Declare Scope io_scope.
Delimit Scope io_scope with io.
Delimit Scope exc_scope with exc.
Notation "x <- c ;; k" := (bind c (fun x => k))
  (at level 61, c at next level, right associativity) : exc_scope.
Notation "' p <- c ;; k" := (bind c (fun x => let p := x in k))
  (at level 61, p pattern, c at next level, right associativity) : exc_scope.

Open Scope exc_scope.

(** [for x in xs: f(x)], collecting the results; the first exception ends
    the loop. *)
Fixpoint mapM {A B : Type} (f : A -> exc B) (xs : list A) : exc (list B) :=
  match xs with
  | [] => Ok []
  | x :: rest =>
      y <- f x ;;
      ys <- mapM f rest ;;
      Ok (y :: ys)
  end.

(** Python's built-in [max] over an iterable: the first item is the
    candidate, a later item replaces it when [item > candidate]; the empty
    iterable raises [ValueError]. *)
Fixpoint max_from {A : Type} (lt : A -> A -> bool) (cur : A) (xs : list A) : A :=
  match xs with
  | [] => cur
  | x :: rest => max_from lt (if lt cur x then x else cur) rest
  end.

Definition py_max {A : Type} (lt : A -> A -> bool) (xs : list A) : exc A :=
  match xs with
  | [] => Raise ValueError
  | x :: rest => Ok (max_from lt x rest)
  end.

(** ** The float interface *)

(** What the script asks of Python's [float]: the arithmetic operators, the
    two operations that raise [ZeroDivisionError] and [ValueError], the
    conversions from and to [int], and the comparisons. *)
Class PyFloat (F : Type) : Type := {
  f0 : F;                         (* 0.0 *)
  f1 : F;                         (* 1.0 *)
  fadd : F -> F -> F;             (* x + y *)
  fsub : F -> F -> F;             (* x - y *)
  fmul : F -> F -> F;             (* x * y *)
  fdiv : F -> F -> exc F;         (* x / y, ZeroDivisionError *)
  fsqrt : F -> exc F;             (* math.sqrt(x), ValueError *)
  of_int : Z -> exc F;            (* float(n), OverflowError *)
  round : F -> exc Z;             (* round(x), half to even *)
  flt : F -> F -> bool;           (* x < y *)
  feq : F -> F -> bool            (* x == y *)
}.

(** What the proofs below use of the comparisons and of zero; doubles
    satisfy it. *)
Class PyFloatLaws (F : Type) {PF : PyFloat F} : Prop := {
  flt_irrefl : forall x, flt x x = false;
  flt_trans : forall x y z, flt x y = true -> flt y z = true -> flt x z = true;
  feq_not_lt : forall x y, feq x y = true -> flt x y = false /\ flt y x = false;
  fdiv_by_zero : forall x y, feq y f0 = true -> fdiv x y = Raise ZeroDivisionError;
  feq_zero : feq f0 f0 = true;
  of_int_zero : of_int 0 = Ok f0;
  fsqrt_zero : fsqrt f0 = Ok f0
}.

(** ** IEEE-754 doubles *)

Module Binary64.

(** [float(n)]: the nearest double, ties to even; an [int] beyond the range
    of doubles raises [OverflowError]. *)
Definition of_int (n : Z) : exc float :=
  let x := SF2Prim (binary_normalize prec emax n 0%Z false) in
  if PrimFloat.is_infinity x then Raise OverflowError else Ok x.

(** [round(m * 2^e)] for a positive mantissa [m]: half to even. *)
Definition round_pos (m : positive) (e : Z) : Z :=
  match e with
  | Z.neg p =>
      let d := Z.pow_pos 2 p in
      let q := (Z.pos m / d)%Z in
      let r := (Z.pos m mod d)%Z in
      match (2 * r ?= d)%Z with
      | Lt => q
      | Gt => (q + 1)%Z
      | Eq => if Z.even q then q else (q + 1)%Z
      end
  | _ => (Z.pos m * 2 ^ e)%Z
  end.

(** [round(x)] with one argument returns an [int]; an infinity raises
    [OverflowError] and a NaN [ValueError]. *)
Definition round (x : float) : exc Z :=
  match Prim2SF x with
  | S754_zero _ => Ok 0%Z
  | S754_infinity _ => Raise OverflowError
  | S754_nan => Raise ValueError
  | S754_finite s m e =>
      Ok (if s then (- round_pos m e)%Z else round_pos m e)
  end.

(** [x / y] raises when [y == 0.0] (either sign). *)
Definition div (x y : float) : exc float :=
  if PrimFloat.eqb y 0%float then Raise ZeroDivisionError
  else Ok (PrimFloat.div x y).

(** [math.sqrt] raises [ValueError] below zero. *)
Definition sqrt (x : float) : exc float :=
  if PrimFloat.ltb x 0%float then Raise ValueError
  else Ok (PrimFloat.sqrt x).

End Binary64.

(** CPython's [float]. *)
#[export] Instance binary64 : PyFloat float := {|
  f0 := 0%float;
  f1 := 1%float;
  fadd := PrimFloat.add;
  fsub := PrimFloat.sub;
  fmul := PrimFloat.mul;
  fdiv := Binary64.div;
  fsqrt := Binary64.sqrt;
  of_int := Binary64.of_int;
  round := Binary64.round;
  flt := PrimFloat.ltb;
  feq := PrimFloat.eqb
|}.

(** ** The engine: [main()] of [create_wallpaper.py] *)

Section Engine.

Context {F : Type} {PF : PyFloat F}.

(** One entry of the [monitors] list (lines 53-81): the keys the user
    writes. *)
Record monitor : Type := {
  width : Z;
  height : Z;
  scaling : F;
  size_in : F;
  aspect_w : Z;
  aspect_h : Z;
  offset_bottom : F
}.

(** The entry after the first loop (lines 106-109) has added [width_in] and
    [height_in] to it. *)
Record physical : Type := {
  spec :> monitor;
  width_in : F;
  height_in : F
}.

(** The entry after the second loop (lines 121-123) has added
    [width_scaled] and [height_scaled]. *)
Record logical : Type := {
  phys :> physical;
  width_scaled : Z;
  height_scaled : Z
}.

(** [sum(...)] over floats: [0 + x1 + x2 + ...], left to right.  (From
    CPython 3.12 on the fold carries a compensation term for the rounding
    errors of its additions; the term is zero in exact arithmetic, and on
    doubles whenever the partial sums are exact, as in the runs of this
    file that are traced by hand.) *)
Definition fsum (xs : list F) : F := fold_left fadd xs f0.

(** [sum(...)] over ints. *)
Definition isum (xs : list Z) : Z := fold_left Z.add xs 0%Z.

(** Lines 107-109: the physical size of one monitor in inches. *)
Definition physical_size (m : monitor) : exc physical :=
  n <- of_int (aspect_w m ^ 2 + aspect_h m ^ 2) ;;
  aspect_diagonal <- fsqrt n ;;
  aw <- of_int (aspect_w m) ;;
  w <- fdiv (fmul (size_in m) aw) aspect_diagonal ;;
  ah <- of_int (aspect_h m) ;;
  h <- fdiv (fmul (size_in m) ah) aspect_diagonal ;;
  Ok {| spec := m; width_in := w; height_in := h |}.

(** Line 112. *)
Definition total_width_in (ms : list physical) (gaps_in : list F) : F :=
  fadd (fsum (map width_in ms)) (fsum gaps_in).

(** Line 115. *)
Definition max_height_in (ms : list physical) : exc F :=
  py_max flt (map (fun m => fadd (height_in m) (offset_bottom m)) ms).

(** [int(round(n / s))] of lines 122 and 123. *)
Definition scaled_px (n : Z) (s : F) : exc Z :=
  x <- of_int n ;;
  q <- fdiv x s ;;
  round q.

(** Lines 122-123: the pixel size one monitor displays. *)
Definition scaled_size (m : physical) : exc logical :=
  ws <- scaled_px (width m) (scaling m) ;;
  hs <- scaled_px (height m) (scaling m) ;;
  Ok {| phys := m; width_scaled := ws; height_scaled := hs |}.

(** Line 126. *)
Definition total_output_width (ms : list logical) : Z :=
  isum (map width_scaled ms).

(** Line 127. *)
Definition output_height (ms : list logical) : exc Z :=
  py_max Z.ltb (map height_scaled ms).

(** A Pillow box: (left, upper, right, lower). *)
Definition box : Type := (Z * Z * Z * Z)%type.

(** The size of [img.crop(box)] when the call returns: an image as large
    as the box.  (For a box whose right edge lies left of its left edge, or
    whose lower edge lies above its upper edge, recent versions of Pillow
    raise [ValueError] instead; no run that saved has met that.) *)
Definition crop_size (b : box) : Z * Z :=
  let '(x0, y0, x1, y1) := b in ((x1 - x0)%Z, (y1 - y0)%Z).

(** Which arm of lines 144-160 ran. *)
Inductive crop_branch : Set :=
| CropHorizontal
| CropVertical
| NoCrop.

(** Line 139: [input_w / input_h] on two ints. *)
Definition input_aspect (input_w input_h : Z) : exc F :=
  iw <- of_int input_w ;;
  ih <- of_int input_h ;;
  fdiv iw ih.

(** Line 140. *)
Definition layout_aspect (total_width max_height : F) : exc F :=
  fdiv total_width max_height.

(** Line 146: [int(round(input_h * layout_aspect))]. *)
Definition new_input_w (input_h : Z) (la : F) : exc Z :=
  ih <- of_int input_h ;;
  round (fmul ih la).

(** Line 153: [int(round(input_w / layout_aspect))]. *)
Definition new_input_h (input_w : Z) (la : F) : exc Z :=
  iw <- of_int input_w ;;
  q <- fdiv iw la ;;
  round q.

(** Lines 139-160: the crop that gives the input image the aspect ratio of
    the layout. *)
Definition crop_to_layout (input_w input_h : Z) (total_width max_height : F)
  : exc (crop_branch * box) :=
  ia <- input_aspect input_w input_h ;;
  la <- layout_aspect total_width max_height ;;
  if flt la ia then
    nw <- new_input_w input_h la ;;
    let left := ((input_w - nw) / 2)%Z in
    Ok (CropHorizontal, (left, 0%Z, (left + nw)%Z, input_h))
  else if flt ia la then
    nh <- new_input_h input_w la ;;
    let top := ((input_h - nh) / 2)%Z in
    Ok (CropVertical, (0%Z, top, input_w, (top + nh)%Z))
  else
    Ok (NoCrop, (0%Z, 0%Z, input_w, input_h)).

(** The local variables of one iteration of the main loop (lines 177-217);
    [current_x] and [running_inch_x] are the values on entry. *)
Record iteration : Type := {
  current_x : Z;
  running_inch_x : F;
  left_frac : F;
  right_frac : F;
  crop_left : Z;
  crop_right : Z;
  offset_frac : F;
  height_frac : F;
  bottom_frac : F;
  top_frac : F;
  crop_top : Z;
  crop_bottom : Z;
  y_offset : Z
}.

(** [int(round(frac * n))] of lines 184, 185, 198 and 199. *)
Definition to_px (frac : F) (n : Z) : exc Z :=
  x <- of_int n ;;
  round (fmul frac x).

(** Lines 180-208 for one monitor. *)
Definition slice (total_width max_height : F) (out_height input_w input_h : Z)
  (cur_x : Z) (run_x : F) (m : logical) : exc iteration :=
  lf <- fdiv run_x total_width ;;
  rf <- fdiv (fadd run_x (width_in m)) total_width ;;
  cl <- to_px lf input_w ;;
  cr <- to_px rf input_w ;;
  off <- fdiv (offset_bottom m) max_height ;;
  hf <- fdiv (height_in m) max_height ;;
  let bf := fsub f1 off in
  let tf := fsub bf hf in
  ct <- to_px tf input_h ;;
  cb <- to_px bf input_h ;;
  Ok {| current_x := cur_x; running_inch_x := run_x;
        left_frac := lf; right_frac := rf; crop_left := cl; crop_right := cr;
        offset_frac := off; height_frac := hf; bottom_frac := bf; top_frac := tf;
        crop_top := ct; crop_bottom := cb;
        y_offset := (out_height - height_scaled m)%Z |}.

(** Lines 215-217: the inch offset after monitor [i]. *)
Definition advance (gaps_in : list F) (i : nat) (run_x : F) (m : logical) : F :=
  let run_x := fadd run_x (width_in m) in
  match nth_error gaps_in i with
  | Some gap => fadd run_x gap
  | None => run_x
  end.

(** Lines 177-217: [for i, m in enumerate(monitors)], from index [i] on. *)
Fixpoint main_loop (total_width max_height : F) (out_height input_w input_h : Z)
  (gaps_in : list F) (i : nat) (cur_x : Z) (run_x : F) (ms : list logical)
  : exc (list iteration) :=
  match ms with
  | [] => Ok []
  | m :: rest =>
      it <- slice total_width max_height out_height input_w input_h cur_x run_x m ;;
      its <- main_loop total_width max_height out_height input_w input_h gaps_in
               (S i) (cur_x + width_scaled m)%Z (advance gaps_in i run_x m) rest ;;
      Ok (it :: its)
  end.

(** One [region.resize(...)] pasted into the output (lines 202-209). *)
Record pasted : Type := {
  region : box;
  resized : Z * Z;
  position : Z * Z
}.

(** The output image, as the calls that build it: the red canvas of line
    169, the crop of line 163 and the pastes of the loop. *)
Record image : Type := {
  canvas : Z * Z;
  cropped : box;
  pastes : list pasted
}.

Definition paste_of (m : logical) (it : iteration) : pasted :=
  {| region := (crop_left it, crop_top it, crop_right it, crop_bottom it);
     resized := (width_scaled m, height_scaled m);
     position := (current_x it, y_offset it) |}.

Fixpoint pastes_of (ms : list logical) (its : list iteration) : list pasted :=
  match ms, its with
  | m :: ms', it :: its' => paste_of m it :: pastes_of ms' its'
  | _, _ => []
  end.

(** What the script prints. *)
Inductive message : Type :=
| Usage
| GapsError
| SetupDimensions (w h : F)
| OutputDimensions (w h : Z)
| InputDimensions (w h : Z)
| CroppingHorizontally
| CroppingVertically
| NoCroppingNeeded
| SavedTo (path : string).

(** What a run does to the outside: standard output and the two files. *)
Inductive event : Type :=
| Print (msg : message)
| ImageOpen (path : string)
| ImageSave (path : string) (img : image).

(** How a run ends before the last line: [sys.exit] or an exception nobody
    catches. *)
Inductive failure : Set :=
| SystemExit (code : Z)
| Uncaught (e : exn).

Inductive stop (A : Type) : Type :=
| Continue (a : A)
| Halt (f : failure).

Arguments Continue {A} a.
Arguments Halt {A} f.

(** A run: the events so far, and whether it goes on. *)
Definition io (A : Type) : Type := (list event * stop A)%type.

Definition io_bind {A B : Type} (c : io A) (k : A -> io B) : io B :=
  match c with
  | (evs, Continue a) => let '(evs', r) := k a in (evs ++ evs', r)
  | (evs, Halt f) => (evs, Halt f)
  end.

Definition emit (e : event) : io unit := ([e], Continue tt).

Definition sys_exit {A : Type} (code : Z) : io A := ([], Halt (SystemExit code)).

Definition lift {A : Type} (c : exc A) : io A :=
  match c with
  | Ok a => ([], Continue a)
  | Raise e => ([], Halt (Uncaught e))
  end.

Definition crop_message (b : crop_branch) : message :=
  match b with
  | CropHorizontal => CroppingHorizontally
  | CropVertical => CroppingVertically
  | NoCrop => NoCroppingNeeded
  end.

(** The exit status of the process. *)
Definition exit_status (r : stop unit) : Z :=
  match r with
  | Continue _ => 0%Z
  | Halt (SystemExit code) => code
  | Halt (Uncaught _) => 1%Z
  end.

Notation "x <- c ;; k" := (io_bind c (fun x => k))
  (at level 61, c at next level, right associativity) : io_scope.
Notation "c ;; k" := (io_bind c (fun _ => k))
  (at level 61, right associativity) : io_scope.

(** [main()], lines 93-220.  [argv] is [sys.argv], [monitors] and [gaps_in]
    are the two module-level lists, and [image_open path] is the size of the
    image [Image.open(path)] finds, or the exception it raises. *)
Definition main (argv : list string) (monitors : list monitor) (gaps_in : list F)
  (image_open : string -> exc (Z * Z)) : io unit :=
  (if (Z.of_nat (List.length argv) <? 3)%Z then
     emit (Print Usage) ;; sys_exit 1
   else if negb (Z.of_nat (List.length gaps_in) =? Z.of_nat (List.length monitors) - 1)%Z then
     emit (Print GapsError) ;; sys_exit 1
   else
     let input_path := nth 1 argv EmptyString in
     let output_path := nth 2 argv EmptyString in
     ps <- lift (mapM physical_size monitors) ;;
     let total_width := total_width_in ps gaps_in in
     max_height <- lift (max_height_in ps) ;;
     emit (Print (SetupDimensions total_width max_height)) ;;
     ms <- lift (mapM scaled_size ps) ;;
     let out_width := total_output_width ms in
     out_height <- lift (output_height ms) ;;
     emit (Print (OutputDimensions out_width out_height)) ;;
     emit (ImageOpen input_path) ;;
     size <- lift (image_open input_path) ;;
     let '(input_w, input_h) := size in
     emit (Print (InputDimensions input_w input_h)) ;;
     bc <- lift (crop_to_layout input_w input_h total_width max_height) ;;
     let '(branch, crop_box) := bc in
     emit (Print (crop_message branch)) ;;
     let '(input_w, input_h) := crop_size crop_box in
     its <- lift (main_loop total_width max_height out_height input_w input_h
                    gaps_in 0 0%Z f0 ms) ;;
     emit (ImageSave output_path
             {| canvas := (out_width, out_height);
                cropped := crop_box;
                pastes := pastes_of ms its |}) ;;
     emit (Print (SavedTo output_path)))%io.

(** *** What the statements below say about a run *)

(** The vertical part of one iteration: lines 188-199 for monitor [m]. *)
Definition vertical_range (max_height : F) (input_h : Z) (m : logical)
  (it : iteration) : Prop :=
  fdiv (offset_bottom m) max_height = Ok (offset_frac it) /\
  bottom_frac it = fsub f1 (offset_frac it) /\
  fdiv (height_in m) max_height = Ok (height_frac it) /\
  top_frac it = fsub (bottom_frac it) (height_frac it) /\
  to_px (top_frac it) input_h = Ok (crop_top it) /\
  to_px (bottom_frac it) input_h = Ok (crop_bottom it).


End Engine.

Arguments monitor F : clear implicits.
Arguments physical F : clear implicits.
Arguments logical F : clear implicits.
Arguments iteration F : clear implicits.
Arguments message F : clear implicits.
Arguments event F : clear implicits.
Arguments io F A : clear implicits.
Arguments Continue {A} a.
Arguments Halt {A} f.

(** ** Configurations used in the examples *)

Definition argv0 : list string :=
  ["create_wallpaper.py"; "in.png"; "out.png"]%string.

(** [Image.open] finds an image of the given size, whatever the path. *)
Definition opened (w h : Z) : string -> exc (Z * Z) := fun _ => Ok (w, h).

Definition panel (w h : Z) (s d : float) (aw ah : Z) (off : float) : monitor float :=
  {| width := w; height := h; scaling := s; size_in := d;
     aspect_w := aw; aspect_h := ah; offset_bottom := off |}.

(** The configuration the script ships with (lines 53-85). *)
Definition shipped : list (monitor float) :=
  [ panel 1920 1080 1.25 15.6 16 9 0.1;
    panel 3840 2160 1.5 32.0 16 9 0.0;
    panel 2560 1440 1.25 27.0 16 9 0.75 ].

Definition shipped_gaps : list float := [0.4; 0.5]%float.

(** Two 4:3 panels whose sizes are whole inches: a 5 inch one (4 by 3),
    raised by 1, and a 10 inch one (8 by 6) at scaling 2, raised by 2.  With
    a gap of 4 the layout is 16 wide and 8 high, and every fraction below
    is a binary fraction, so doubles and reals agree on it. *)
Definition desk : list (monitor float) :=
  [ panel 1920 1080 1 5 4 3 1; panel 2560 1920 2 10 4 3 2 ].

Definition desk_ps : list (physical float) :=
  [ {| spec := panel 1920 1080 1 5 4 3 1;
       width_in := 4%float; height_in := 3%float |};
    {| spec := panel 2560 1920 2 10 4 3 2;
       width_in := 8%float; height_in := 6%float |} ].

Definition desk_ms : list (logical float) :=
  [ {| phys := {| spec := panel 1920 1080 1 5 4 3 1;
                  width_in := 4%float; height_in := 3%float |};
       width_scaled := 1920; height_scaled := 1080 |};
    {| phys := {| spec := panel 2560 1920 2 10 4 3 2;
                  width_in := 8%float; height_in := 6%float |};
       width_scaled := 1280; height_scaled := 960 |} ].

(** The two iterations of the loop on [desk] with the gap 4, for an image
    of 1600 by 800 pixels. *)
Definition desk_its : list (iteration float) :=
  [ {| current_x := 0; running_inch_x := 0%float;
       left_frac := 0%float; right_frac := 0.25%float;
       crop_left := 0; crop_right := 400;
       offset_frac := 0.125%float; height_frac := 0.375%float;
       bottom_frac := 0.875%float; top_frac := 0.5%float;
       crop_top := 400; crop_bottom := 700; y_offset := 0 |};
    {| current_x := 1920; running_inch_x := 8%float;
       left_frac := 0.5%float; right_frac := 1%float;
       crop_left := 800; crop_right := 1600;
       offset_frac := 0.25%float; height_frac := 0.75%float;
       bottom_frac := 0.75%float; top_frac := 0%float;
       crop_top := 0; crop_bottom := 600; y_offset := 120 |} ].

Definition desk_image : image :=
  {| canvas := (3200, 1080)%Z;
     cropped := (200, 0, 1800, 800)%Z;
     pastes :=
       [ {| region := (0, 400, 400, 700)%Z; resized := (1920, 1080)%Z;
            position := (0, 0)%Z |};
         {| region := (800, 0, 1600, 600)%Z; resized := (1280, 960)%Z;
            position := (1920, 120)%Z |} ] |}.

(** The run of [main] on [desk] with an image of 2000 by 800 pixels: wider
    than the layout, so it is cropped to 1600 by 800 first. *)
Definition desk_trace : list (event float) :=
  [ Print (SetupDimensions 16%float 8%float);
    Print (OutputDimensions 3200 1080);
    ImageOpen "in.png";
    Print (InputDimensions 2000 800);
    Print CroppingHorizontally;
    ImageSave "out.png" desk_image;
    Print (SavedTo "out.png") ].

(** Two 16:9 laptop panels on the baseline, 13.3 and 14 inches, used with a
    gap of 0.4 inches. *)
Definition laptops : list (monitor float) :=
  [ panel 1920 1080 1 13.3 16 9 0; panel 1920 1080 1 14 16 9 0 ].

(** Two equal 5 inch panels (4 by 3 inches each), on the baseline. *)
Definition pair_ms : list (logical float) :=
  [ {| phys := {| spec := panel 1920 1080 1 5 4 3 0;
                  width_in := 4%float; height_in := 3%float |};
       width_scaled := 1920; height_scaled := 1080 |};
    {| phys := {| spec := panel 1920 1080 1 5 4 3 0;
                  width_in := 4%float; height_in := 3%float |};
       width_scaled := 1920; height_scaled := 1080 |} ].

(** The loop on [pair_ms] with a gap of 0 inches: the layout is 8 wide. *)
Definition touching_its : list (iteration float) :=
  [ {| current_x := 0; running_inch_x := 0%float;
       left_frac := 0%float; right_frac := 0.5%float;
       crop_left := 0; crop_right := 400;
       offset_frac := 0%float; height_frac := 1%float;
       bottom_frac := 1%float; top_frac := 0%float;
       crop_top := 0; crop_bottom := 300; y_offset := 0 |};
    {| current_x := 1920; running_inch_x := 4%float;
       left_frac := 0.5%float; right_frac := 1%float;
       crop_left := 400; crop_right := 800;
       offset_frac := 0%float; height_frac := 1%float;
       bottom_frac := 1%float; top_frac := 0%float;
       crop_top := 0; crop_bottom := 300; y_offset := 0 |} ].



(** ** Vocabulary for boxes and traces *)

(** The four edges of a Pillow box. *)
Definition box_left (b : box) : Z := let '(x0, _, _, _) := b in x0.

Definition box_top (b : box) : Z := let '(_, y0, _, _) := b in y0.

Definition box_right (b : box) : Z := let '(_, _, x1, _) := b in x1.

Definition box_bottom (b : box) : Z := let '(_, _, _, y1) := b in y1.

(** Everything a run that reaches line 220 prints, opens and writes, in
    order: lines 117, 129-130, 133, 136, 149/156/160, 219 and 220. *)
Definition completed_trace {F : Type} (argv : list string) (total_width max_height : F)
  (out_width out_height input_w input_h : Z) (branch : crop_branch) (img : image)
  : list (event F) :=
  [ Print (SetupDimensions total_width max_height);
    Print (OutputDimensions out_width out_height);
    ImageOpen (nth 1 argv EmptyString);
    Print (InputDimensions input_w input_h);
    Print (crop_message branch);
    ImageSave (nth 2 argv EmptyString) img;
    Print (SavedTo (nth 2 argv EmptyString)) ].

(** What a run has printed and opened when [Image.open] raises at line
    133. *)
Definition trace_to_open {F : Type} (argv : list string) (total_width max_height : F)
  (out_width out_height : Z) : list (event F) :=
  [ Print (SetupDimensions total_width max_height);
    Print (OutputDimensions out_width out_height);
    ImageOpen (nth 1 argv EmptyString) ].

(** [Image.open] does not find the file. *)
Definition missing : string -> exc (Z * Z) := fun _ => Raise OSError.

(** * Properties *)

(** ** The laws hold on doubles *)

(** The order of doubles, read off the specification of [PrimFloat.ltb] and
    [PrimFloat.eqb] ([SFcompare] on the decoded values). *)
Section SpecFloatOrder.

Ltac compare_cases :=
  repeat match goal with
  | |- context [Z.compare ?a ?b] => destruct (Z.compare_spec a b); subst
  | H : context [Z.compare ?a ?b] |- _ => destruct (Z.compare_spec a b); subst
  | |- context [Pos.compare ?a ?b] => destruct (Pos.compare_spec a b); subst
  | H : context [Pos.compare ?a ?b] |- _ => destruct (Pos.compare_spec a b); subst
  end.

Lemma SFcompare_refl_not_Lt (x : spec_float) : SFcompare x x <> Some Lt.
Proof.
  destruct x as [s|s| |s m e]; simpl; try destruct s; try discriminate;
    rewrite Z.compare_refl;
    change (PosDef.Pos.compare_cont Eq m m) with (Pos.compare m m);
    rewrite Pos.compare_refl; discriminate.
Qed.

Lemma SFcompare_Lt_trans (x y z : spec_float) :
  SFcompare x y = Some Lt -> SFcompare y z = Some Lt -> SFcompare x z = Some Lt.
Proof.
  destruct x as [s1|s1| |s1 m1 e1], y as [s2|s2| |s2 m2 e2],
           z as [s3|s3| |s3 m3 e3];
    simpl; try discriminate; try destruct s1; try destruct s2; try destruct s3;
    try discriminate; try reflexivity;
    change PosDef.Pos.compare_cont with Pos.compare_cont;
    fold (Pos.compare m1 m2); fold (Pos.compare m2 m3); fold (Pos.compare m1 m3);
    intros H1 H2; compare_cases; simpl in *;
    try discriminate; try reflexivity; try lia.
Qed.

Lemma SFcompare_Eq_sym (x y : spec_float) :
  SFcompare x y = Some Eq -> SFcompare y x = Some Eq.
Proof.
  destruct x as [s1|s1| |s1 m1 e1], y as [s2|s2| |s2 m2 e2];
    simpl; try discriminate; try destruct s1; try destruct s2;
    try discriminate; try reflexivity;
    change PosDef.Pos.compare_cont with Pos.compare_cont;
    fold (Pos.compare m1 m2); fold (Pos.compare m2 m1);
    intros H1; compare_cases; simpl in *;
    try discriminate; try reflexivity; try lia.
Qed.

Lemma ltb_irrefl (x : float) : PrimFloat.ltb x x = false.
Proof.
  rewrite ltb_spec. unfold SFltb.
  pose proof (SFcompare_refl_not_Lt (Prim2SF x)) as H.
  destruct (SFcompare (Prim2SF x) (Prim2SF x)) as [[]|]; congruence.
Qed.

Lemma ltb_trans (x y z : float) :
  PrimFloat.ltb x y = true -> PrimFloat.ltb y z = true -> PrimFloat.ltb x z = true.
Proof.
  rewrite !ltb_spec. unfold SFltb.
  pose proof (@SFcompare_Lt_trans (Prim2SF x) (Prim2SF y) (Prim2SF z)) as H.
  destruct (SFcompare (Prim2SF x) (Prim2SF y)) as [[]|]; try discriminate.
  destruct (SFcompare (Prim2SF y) (Prim2SF z)) as [[]|]; try discriminate.
  intros _ _. rewrite H; reflexivity.
Qed.

Lemma eqb_not_ltb (x y : float) :
  PrimFloat.eqb x y = true ->
  PrimFloat.ltb x y = false /\ PrimFloat.ltb y x = false.
Proof.
  rewrite eqb_spec, !ltb_spec. unfold SFeqb, SFltb.
  pose proof (@SFcompare_Eq_sym (Prim2SF x) (Prim2SF y)) as H.
  destruct (SFcompare (Prim2SF x) (Prim2SF y)) as [[]|]; try discriminate.
  intros _. rewrite H; auto.
Qed.

End SpecFloatOrder.

#[export] Instance binary64_laws : PyFloatLaws float.
Proof.
  constructor.
  - exact ltb_irrefl.
  - exact ltb_trans.
  - exact eqb_not_ltb.
  - intros x y H. cbv [fdiv feq f0 binary64 Binary64.div] in *. rewrite H.
    reflexivity.
  - reflexivity.
  - reflexivity.
  - reflexivity.
Qed.

(** ** The error monad, loops and [max] *)

Lemma bind_Ok {A B : Type} (c : exc A) (k : A -> exc B) (b : B) :
  bind c k = Ok b -> exists a, c = Ok a /\ k a = Ok b.
Proof.
  destruct c as [a|e]; simpl; intros H; [eauto | discriminate].
Qed.

(** Splits a hypothesis [x <- c ;; k = Ok b] into its steps. *)
Ltac bind_inv H :=
  let a := fresh "a" in
  let Ha := fresh "E" in
  apply bind_Ok in H; destruct H as (a & Ha & H).

Ltac binds_inv H :=
  repeat (bind_inv H); try (injection H as H); subst.

Lemma mapM_Forall2 {A B : Type} (f : A -> exc B) (xs : list A) (ys : list B) :
  mapM f xs = Ok ys -> Forall2 (fun x y => f x = Ok y) xs ys.
Proof.
  revert ys. induction xs as [|x xs IH]; simpl; intros ys H.
  - injection H as <-. constructor.
  - bind_inv H. bind_inv H. injection H as <-. constructor; auto.
Qed.

Lemma mapM_total {A B : Type} (f : A -> exc B) (xs : list A) :
  (forall x, In x xs -> exists y, f x = Ok y) -> exists ys, mapM f xs = Ok ys.
Proof.
  induction xs as [|x xs IH]; simpl; intros H.
  - eauto.
  - destruct (H x (or_introl eq_refl)) as (y & Hy). rewrite Hy. simpl.
    destruct IH as (ys & Hys); [intros; apply H; auto|].
    rewrite Hys. simpl. eauto.
Qed.

Lemma mapM_length {A B : Type} (f : A -> exc B) (xs : list A) (ys : list B) :
  mapM f xs = Ok ys -> List.length ys = List.length xs.
Proof.
  intros H. apply mapM_Forall2 in H. symmetry. eapply Forall2_length; eauto.
Qed.

Lemma Forall2_nth_error {A B : Type} (P : A -> B -> Prop) (xs : list A) (ys : list B) :
  Forall2 P xs ys ->
  forall i x y, nth_error xs i = Some x -> nth_error ys i = Some y -> P x y.
Proof.
  induction 1 as [|x0 y0 xs ys H0 H IH]; intros [|i] x y Hx Hy; simpl in *;
    try discriminate.
  - injection Hx as <-. injection Hy as <-. exact H0.
  - eauto.
Qed.


Lemma Forall2_In_r {A B : Type} (P : A -> B -> Prop) (xs : list A) (ys : list B) :
  Forall2 P xs ys -> forall y, In y ys -> exists x, In x xs /\ P x y.
Proof.
  induction 1 as [|x0 y0 xs ys H0 H IH]; simpl; intros y Hy; [contradiction|].
  destruct Hy as [<-|Hy]; [eauto|].
  destruct (IH y Hy) as (x & Hx & HP). eauto.
Qed.

(** [max] returns one of the items ... *)
Lemma max_from_In {A : Type} (lt : A -> A -> bool) (xs : list A) (cur : A) :
  In (max_from lt cur xs) (cur :: xs).
Proof.
  revert cur. induction xs as [|x xs IH]; intros cur; simpl.
  - auto.
  - destruct (IH (if lt cur x then x else cur)) as [H|H]; [|auto].
    destruct (lt cur x); rewrite <- H; auto.
Qed.

(** ... and, for an irreflexive and transitive [<], no item is above it. *)
Lemma max_from_upper {A : Type} (lt : A -> A -> bool)
  (irrefl : forall x, lt x x = false)
  (trans : forall x y z, lt x y = true -> lt y z = true -> lt x z = true)
  (xs seen : list A) (cur : A) :
  (forall x, In x seen -> lt cur x = false) ->
  forall x, In x (seen ++ cur :: xs) -> lt (max_from lt cur xs) x = false.
Proof.
  revert seen cur. induction xs as [|y xs IH]; intros seen cur Hseen x Hx; simpl.
  - apply in_app_or in Hx. destruct Hx as [Hx|[<-|[]]]; auto.
  - apply (IH (seen ++ [cur; y])).
    + intros z Hz. apply in_app_or in Hz.
      destruct (lt cur y) eqn:Hcy.
      * destruct Hz as [Hz|[<-|[<-|[]]]]; auto.
        -- destruct (lt y z) eqn:Hyz; [|reflexivity].
           pose proof (trans _ _ _ Hcy Hyz) as Hcz.
           rewrite (Hseen z Hz) in Hcz. discriminate.
        -- destruct (lt y cur) eqn:Hyc; [|reflexivity].
           pose proof (trans _ _ _ Hcy Hyc) as Hcc. rewrite irrefl in Hcc.
           discriminate.
      * destruct Hz as [Hz|[<-|[<-|[]]]]; auto.
    + apply in_app_or in Hx. apply in_or_app.
      destruct Hx as [Hx|[<-|[<-|Hx]]];
        [left; apply in_or_app; simpl; auto .. | right; simpl; auto].
Qed.

Lemma py_max_spec {A : Type} (lt : A -> A -> bool)
  (irrefl : forall x, lt x x = false)
  (trans : forall x y z, lt x y = true -> lt y z = true -> lt x z = true)
  (xs : list A) (top : A) :
  py_max lt xs = Ok top ->
  In top xs /\ forall x, In x xs -> lt top x = false.
Proof.
  destruct xs as [|c xs]; simpl; intros H; [discriminate|].
  injection H as <-. split.
  - apply max_from_In.
  - intros x Hx. apply (max_from_upper lt irrefl trans xs [] c); simpl; auto.
    intros ? [].
Qed.

Lemma Zltb_trans (x y z : Z) :
  (x <? y)%Z = true -> (y <? z)%Z = true -> (x <? z)%Z = true.
Proof. rewrite !Z.ltb_lt. lia. Qed.

(** ** Runs of [main] *)

Lemma io_bind_emit_inv {F B : Type} (e : event F) (k : unit -> io F B)
  (evs : list (event F)) (r : stop B) :
  io_bind (emit e) k = (evs, r) -> exists evs', evs = e :: evs' /\ k tt = (evs', r).
Proof.
  unfold io_bind, emit. destruct (k tt) as [evs' r']. simpl.
  intros H. injection H as <- <-. eauto.
Qed.

Lemma io_bind_lift_inv {F A B : Type} (c : exc A) (k : A -> io F B)
  (evs : list (event F)) (r : stop B) :
  io_bind (lift c) k = (evs, r) ->
  (exists a, c = Ok a /\ k a = (evs, r)) \/
  (exists e, c = Raise e /\ evs = [] /\ r = Halt (Uncaught e)).
Proof.
  unfold io_bind, lift. destruct c as [a|e].
  - destruct (k a) as [evs' r'] eqn:Hk. simpl. intros H. injection H as <- <-.
    left. eauto.
  - intros H. injection H as <- <-. right. eauto.
Qed.

(** One step of a run [H : ... = (evs, r)]: an event is taken off the
    trace, or a computation returned (first goal) or raised (second). *)
Ltac io_step H :=
  first
    [ apply io_bind_emit_inv in H;
      let evs := fresh "evs" in
      destruct H as (evs & -> & H)
    | apply io_bind_lift_inv in H;
      let a := fresh "a" in
      let e := fresh "e" in
      let E := fresh "E" in
      destruct H as [(a & E & H) | (e & E & -> & ->)] ].

(** A trace that stops short of line 219 holds no [ImageSave]. *)
Ltac no_save :=
  simpl; intros Hin;
  repeat (destruct Hin as [Hin|Hin]; [discriminate Hin|]); contradiction.

Section EngineFacts.

Context {F : Type} {PF : PyFloat F} {PL : PyFloatLaws F}.

(** A run that saved an image went through every line of [main]: the
    values the lines compute, and what the saved image is made of. *)
Lemma main_saved argv monitors gaps_in image_open evs r path img :
  main argv monitors gaps_in image_open = (evs, r) ->
  In (ImageSave path img) evs ->
  exists ps max_height ms its input_w input_h branch,
    mapM physical_size monitors = Ok ps /\
    max_height_in ps = Ok max_height /\
    mapM scaled_size ps = Ok ms /\
    fst (canvas img) = total_output_width ms /\
    output_height ms = Ok (snd (canvas img)) /\
    image_open (nth 1 argv EmptyString) = Ok (input_w, input_h) /\
    crop_to_layout input_w input_h (total_width_in ps gaps_in) max_height
      = Ok (branch, cropped img) /\
    main_loop (total_width_in ps gaps_in) max_height (snd (canvas img))
      (fst (crop_size (cropped img))) (snd (crop_size (cropped img)))
      gaps_in 0 0%Z f0 ms = Ok its /\
    pastes img = pastes_of ms its /\
    path = nth 2 argv EmptyString /\
    r = Continue tt /\
    (3 <= Z.of_nat (List.length argv))%Z /\
    Z.of_nat (List.length gaps_in) = (Z.of_nat (List.length monitors) - 1)%Z.
Proof.
  unfold main.
  destruct (Z.ltb_spec (Z.of_nat (List.length argv)) 3) as [Hargv|Hargv].
  { simpl. intros H. injection H as <- <-. no_save. }
  destruct (Z.eqb_spec (Z.of_nat (List.length gaps_in))
              (Z.of_nat (List.length monitors) - 1)) as [Hgaps|Hgaps];
    simpl negb; cbv iota.
  2:{ simpl. intros H. injection H as <- <-. no_save. }
  intros H.
  io_step H; [|no_save].
  io_step H; [|no_save].
  io_step H.
  io_step H; [|no_save].
  io_step H; [|no_save].
  io_step H. io_step H.
  io_step H; [|no_save].
  destruct a3 as [input_w input_h].
  io_step H.
  io_step H; [|no_save].
  destruct a3 as [branch crop_box].
  io_step H.
  destruct (crop_size crop_box) as [iw ih] eqn:Ecs.
  io_step H; [|no_save].
  io_step H.
  unfold emit in H. injection H as <- <-.
  simpl. intros Hin.
  repeat (destruct Hin as [Hin|Hin]; [try discriminate Hin|]); [|contradiction].
  injection Hin as <- <-. simpl. rewrite Ecs. simpl.
  exists a, a0, a1, a3, input_w, input_h, branch. repeat split; assumption.
Qed.

(** ** The main loop *)

(** What one iteration leaves in its local variables. *)
Lemma slice_Ok total_width max_height out_height input_w input_h cur_x run_x m it :
  slice total_width max_height out_height input_w input_h cur_x run_x m = Ok it ->
  current_x it = cur_x /\
  running_inch_x it = run_x /\
  fdiv run_x total_width = Ok (left_frac it) /\
  fdiv (fadd run_x (width_in m)) total_width = Ok (right_frac it) /\
  to_px (left_frac it) input_w = Ok (crop_left it) /\
  to_px (right_frac it) input_w = Ok (crop_right it) /\
  fdiv (offset_bottom m) max_height = Ok (offset_frac it) /\
  fdiv (height_in m) max_height = Ok (height_frac it) /\
  bottom_frac it = fsub f1 (offset_frac it) /\
  top_frac it = fsub (bottom_frac it) (height_frac it) /\
  to_px (top_frac it) input_h = Ok (crop_top it) /\
  to_px (bottom_frac it) input_h = Ok (crop_bottom it) /\
  y_offset it = (out_height - height_scaled m)%Z.
Proof.
  unfold slice. intros H. binds_inv H. simpl. repeat split; assumption.
Qed.

Lemma main_loop_Forall2 total_width max_height out_height input_w input_h gaps_in
  ms : forall i cur_x run_x its,
  main_loop total_width max_height out_height input_w input_h gaps_in
    i cur_x run_x ms = Ok its ->
  Forall2 (fun m it =>
             slice total_width max_height out_height input_w input_h
               (current_x it) (running_inch_x it) m = Ok it) ms its.
Proof.
  induction ms as [|m ms IH]; simpl; intros i cur_x run_x its H.
  - injection H as <-. constructor.
  - bind_inv H. bind_inv H. injection H as <-. constructor; eauto.
    destruct (slice_Ok _ _ _ _ _ _ _ _ _ E) as (-> & -> & _). exact E.
Qed.

(** The loop state on entry to the first iteration. *)
Lemma main_loop_first total_width max_height out_height input_w input_h gaps_in
  i cur_x run_x ms its it :
  main_loop total_width max_height out_height input_w input_h gaps_in
    i cur_x run_x ms = Ok its ->
  nth_error its 0 = Some it ->
  current_x it = cur_x /\ running_inch_x it = run_x.
Proof.
  destruct ms as [|m ms]; simpl; intros H Hit.
  - injection H as <-. discriminate.
  - bind_inv H. bind_inv H. injection H as <-. simpl in Hit. injection Hit as <-.
    destruct (slice_Ok _ _ _ _ _ _ _ _ _ E) as (-> & -> & _). auto.
Qed.

(** From one iteration to the next: lines 212 and 215-217. *)
Lemma main_loop_next total_width max_height out_height input_w input_h gaps_in
  ms : forall i cur_x run_x its k m it it',
  main_loop total_width max_height out_height input_w input_h gaps_in
    i cur_x run_x ms = Ok its ->
  nth_error ms k = Some m ->
  nth_error its k = Some it ->
  nth_error its (S k) = Some it' ->
  current_x it' = (current_x it + width_scaled m)%Z /\
  running_inch_x it' = advance gaps_in (i + k) (running_inch_x it) m.
Proof.
  induction ms as [|m0 ms IH]; intros i cur_x run_x its k m it it' H Hm Hit Hit'.
  - destruct k; discriminate.
  - simpl in H. bind_inv H. bind_inv H. injection H as <-.
    destruct k as [|k]; simpl in Hm, Hit, Hit'.
    + injection Hm as <-. injection Hit as <-.
      destruct (slice_Ok _ _ _ _ _ _ _ _ _ E) as (-> & -> & _).
      rewrite Nat.add_0_r.
      eapply main_loop_first; eauto.
    + replace (i + S k)%nat with (S i + k)%nat by lia. eapply IH; eauto.
Qed.

Lemma fold_left_Zadd (xs : list Z) (a : Z) :
  fold_left Z.add xs a = (a + isum xs)%Z.
Proof.
  unfold isum. revert a. induction xs as [|x xs IH]; simpl; intros a; [lia|].
  rewrite (IH (a + x)%Z), (IH x). lia.
Qed.

(** [current_x] is the sum of the widths pasted so far. *)
Lemma main_loop_current_x total_width max_height out_height input_w input_h gaps_in
  ms : forall i cur_x run_x its k it,
  main_loop total_width max_height out_height input_w input_h gaps_in
    i cur_x run_x ms = Ok its ->
  nth_error its k = Some it ->
  current_x it = (cur_x + isum (firstn k (map width_scaled ms)))%Z.
Proof.
  induction ms as [|m0 ms IH]; intros i cur_x run_x its k it H Hit.
  - simpl in H. injection H as <-. destruct k; discriminate.
  - simpl in H. bind_inv H. bind_inv H. injection H as <-.
    destruct k as [|k]; simpl in Hit.
    + injection Hit as <-.
      destruct (slice_Ok _ _ _ _ _ _ _ _ _ E) as (-> & _). simpl.
      unfold isum. simpl. lia.
    + rewrite (IH _ _ _ _ _ _ E0 Hit). simpl. unfold isum at 2. simpl.
      rewrite fold_left_Zadd. lia.
Qed.

Lemma pastes_of_nth ms : forall (its : list (iteration F)) k p,
  nth_error (pastes_of ms its) k = Some p ->
  exists m it, nth_error ms k = Some m /\ nth_error its k = Some it /\
               p = paste_of m it.
Proof.
  induction ms as [|m ms IH]; intros [|it its] k p H; simpl in H;
    try (destruct k; discriminate).
  destruct k as [|k]; simpl in *.
  - injection H as <-. eauto.
  - eauto.
Qed.

Lemma pastes_of_length ms : forall (its : list (iteration F)),
  List.length its = List.length ms ->
  List.length (pastes_of ms its) = List.length ms.
Proof.
  induction ms as [|m ms IH]; intros [|it its] H; simpl in *; try discriminate; auto.
Qed.

(** What the two loops of lines 106-109 and 121-123 add to each entry. *)
Lemma physical_size_spec (m : monitor F) (p : physical F) :
  physical_size m = Ok p -> spec p = m.
Proof. unfold physical_size. intros H. binds_inv H. reflexivity. Qed.

Lemma scaled_size_Ok (p : physical F) (l : logical F) :
  scaled_size p = Ok l ->
  phys l = p /\
  scaled_px (width p) (scaling p) = Ok (width_scaled l) /\
  scaled_px (height p) (scaling p) = Ok (height_scaled l).
Proof. unfold scaled_size. intros H. binds_inv H. simpl. auto. Qed.

(** The second loop keeps the entries of the first. *)
Lemma scaled_keeps_physical (ps : list (physical F)) (ms : list (logical F)) :
  mapM scaled_size ps = Ok ms -> map phys ms = ps.
Proof.
  intros H. apply mapM_Forall2 in H.
  induction H as [|p l ps ms H _ IH]; simpl; [reflexivity|].
  apply scaled_size_Ok in H. destruct H as (-> & _). rewrite IH. reflexivity.
Qed.

Lemma Forall2_map_r {A B C : Type} (P : A -> C -> Prop) (f : B -> C)
  (xs : list A) (ys : list B) :
  Forall2 (fun x y => P x (f y)) xs ys -> Forall2 P xs (map f ys).
Proof. induction 1; simpl; constructor; auto. Qed.

Lemma Forall2_trans_lr {A B C : Type} (P : A -> B -> Prop) (Q : B -> C -> Prop)
  (R : A -> C -> Prop) (xs : list A) (ys : list B) :
  (forall x y z, P x y -> Q y z -> R x z) ->
  Forall2 P xs ys -> forall zs, Forall2 Q ys zs -> Forall2 R xs zs.
Proof.
  intros HR. induction 1 as [|x y xs ys Hxy H IH]; intros zs Hz; inversion Hz; subst;
    constructor; eauto.
Qed.

(** The scaled sizes of the monitors of a run, entry by entry. *)
Lemma scaled_entries monitors ps ms :
  mapM physical_size monitors = Ok ps ->
  mapM scaled_size ps = Ok ms ->
  Forall2 (fun (m : monitor F) (l : logical F) =>
             spec l = m /\
             scaled_px (width m) (scaling m) = Ok (width_scaled l) /\
             scaled_px (height m) (scaling m) = Ok (height_scaled l))
          monitors ms.
Proof.
  intros Hps Hms. apply mapM_Forall2 in Hps. apply mapM_Forall2 in Hms.
  eapply Forall2_trans_lr; [|exact Hps|exact Hms].
  intros m p l Hp Hl. cbv beta in Hp, Hl.
  apply physical_size_spec in Hp. apply scaled_size_Ok in Hl.
  destruct Hl as (-> & Hw & Hh). subst m. auto.
Qed.

(** ** Vertical sampling range *)

(** Line 115 takes the maximum: [max_height_in] is one of the sums
    [height_in + offset_bottom], and none of them is above it. *)
Lemma max_height_is_maximum (ps : list (physical F)) max_height :
  max_height_in ps = Ok max_height ->
  In max_height (map (fun p : physical F => fadd (height_in p) (offset_bottom p)) ps) /\
  forall p : physical F,
    In p ps -> flt max_height (fadd (height_in p) (offset_bottom p)) = false.
Proof.
  intros Hmax. unfold max_height_in in Hmax.
  apply (py_max_spec flt flt_irrefl flt_trans) in Hmax.
  destruct Hmax as (Hin & Hup). split; [exact Hin|].
  intros p Hp. apply Hup.
  apply (in_map (fun p : physical F => fadd (height_in p) (offset_bottom p))).
  exact Hp.
Qed.

Lemma main_loop_vertical_range total_width max_height out_height input_w input_h
  gaps_in i cur_x run_x ms its :
  main_loop total_width max_height out_height input_w input_h gaps_in
    i cur_x run_x ms = Ok its ->
  Forall2 (vertical_range max_height input_h) ms its.
Proof.
  intros Hloop. apply main_loop_Forall2 in Hloop.
  eapply Forall2_impl; [|exact Hloop].
  intros m it H. apply slice_Ok in H. unfold vertical_range. tauto.
Qed.

(** C1: for every monitor of the layout the loop computes
    [bottom_frac = 1 - offset_bottom / max_height_in] and
    [top_frac = bottom_frac - height_in / max_height_in]; [max_height_in] is
    the maximum of [height_in + offset_bottom] over the monitors (one of
    these sums, and none of them is above it); the fractions run from the
    top: [top_frac] gives the upper and [bottom_frac] the lower edge of the
    crop box. *)
Theorem vertical_sampling_range ms gaps_in total_width max_height out_height
  input_w input_h i cur_x run_x its :
  max_height_in (map phys ms) = Ok max_height ->
  main_loop total_width max_height out_height input_w input_h gaps_in
    i cur_x run_x ms = Ok its ->
  (In max_height (map (fun m : logical F => fadd (height_in m) (offset_bottom m)) ms) /\
   forall m : logical F,
     In m ms -> flt max_height (fadd (height_in m) (offset_bottom m)) = false) /\
  Forall2 (vertical_range max_height input_h) ms its.
Proof.
  intros Hmax Hloop. split.
  - apply max_height_is_maximum in Hmax. destruct Hmax as (Hin & Hup).
    rewrite map_map in Hin. split; [exact Hin|].
    intros m Hm. apply (Hup (phys m)). apply in_map. exact Hm.
  - eapply main_loop_vertical_range. exact Hloop.
Qed.

(** The same, read off a run of [main] that saved its image: the upper and
    lower edges of the regions it pasted are these fractions of the height
    of the cropped input, rounded. *)
Corollary saved_vertical_ranges argv monitors gaps_in image_open evs r path img :
  main argv monitors gaps_in image_open = (evs, r) ->
  In (ImageSave path img) evs ->
  exists ps ms max_height its,
    mapM physical_size monitors = Ok ps /\
    mapM scaled_size ps = Ok ms /\
    max_height_in ps = Ok max_height /\
    pastes img = pastes_of ms its /\
    Forall2 (vertical_range max_height (snd (crop_size (cropped img)))) ms its.
Proof.
  intros Hrun Hsave.
  destruct (main_saved _ _ _ _ _ _ _ _ Hrun Hsave)
    as (ps & maxh & ms & its & iw & ih & b & Hps & Hmax & Hms & _ & _ & _ & _
        & Hloop & Hpastes & _).
  exists ps, ms, maxh, its. repeat split; try assumption.
  eapply main_loop_vertical_range. exact Hloop.
Qed.

(** ** The output canvas *)


(** ** Placement in the output *)

(** C6: the [i]-th paste of the saved image is the region resized to
    [(width_scaled_i, height_scaled_i)], put at
    [x = width_scaled_0 + ... + width_scaled_(i-1)] (0 for the first) and
    [y = output_height - height_scaled_i]: bottom-aligned, whatever
    [offset_bottom] is. *)
Theorem paste_positions argv monitors gaps_in image_open evs r path img :
  main argv monitors gaps_in image_open = (evs, r) ->
  In (ImageSave path img) evs ->
  exists ws hs : list Z,
    Forall2 (fun (m : monitor F) w => scaled_px (width m) (scaling m) = Ok w)
      monitors ws /\
    Forall2 (fun (m : monitor F) h => scaled_px (height m) (scaling m) = Ok h)
      monitors hs /\
    List.length (pastes img) = List.length monitors /\
    forall i p, nth_error (pastes img) i = Some p ->
      exists w h,
        nth_error ws i = Some w /\ nth_error hs i = Some h /\
        resized p = (w, h) /\
        position p = (isum (firstn i ws), (snd (canvas img) - h)%Z).
Proof.
  intros Hrun Hsave.
  destruct (main_saved _ _ _ _ _ _ _ _ Hrun Hsave)
    as (ps & maxh & ms & its & iw & ih & b & Hps & _ & Hms & Hw & Hh & _ & _
        & Hloop & Hpastes & _).
  pose proof (scaled_entries _ _ _ Hps Hms) as Hent.
  exists (map width_scaled ms), (map height_scaled ms). repeat split.
  - apply Forall2_map_r. eapply Forall2_impl; [|exact Hent]. simpl. tauto.
  - apply Forall2_map_r. eapply Forall2_impl; [|exact Hent]. simpl. tauto.
  - rewrite Hpastes, pastes_of_length.
    + symmetry. eapply Forall2_length; eauto.
    + symmetry. eapply Forall2_length. eapply main_loop_Forall2; eauto.
  - intros k p Hp. rewrite Hpastes in Hp.
    destruct (pastes_of_nth _ _ _ _ Hp) as (m & it & Hm & Hit & ->).
    exists (width_scaled m), (height_scaled m).
    rewrite !nth_error_map, Hm. simpl. repeat split.
    erewrite main_loop_current_x by eauto.
    pose proof (main_loop_Forall2 _ _ _ _ _ _ _ _ _ _ _ Hloop) as Hall.
    pose proof (Forall2_nth_error _ _ _ Hall k _ _ Hm Hit) as Hs. cbv beta in Hs.
    apply slice_Ok in Hs. destruct Hs as (_&_&_&_&_&_&_&_&_&_&_&_&Hy).
    rewrite Hy. reflexivity.
Qed.

(** ** The gap count *)

(** C9: when [len(gaps_in) != len(monitors) - 1] the whole run is one
    printed message and [sys.exit(1)]: the usage text if [sys.argv] is too
    short as well, the gap error otherwise. No image is opened and none is
    written. *)
Theorem gap_count_mismatch argv (monitors : list (monitor F)) gaps_in image_open :
  Z.of_nat (List.length gaps_in) <> (Z.of_nat (List.length monitors) - 1)%Z ->
  main argv monitors gaps_in image_open =
    ([Print (if (Z.of_nat (List.length argv) <? 3)%Z then Usage else GapsError)],
     Halt (SystemExit 1)) /\
  exit_status (snd (main argv monitors gaps_in image_open)) = 1%Z.
Proof.
  intros Hne. unfold main.
  destruct (Z.of_nat (List.length argv) <? 3)%Z; [split; reflexivity|].
  destruct (Z.eqb_spec (Z.of_nat (List.length gaps_in))
              (Z.of_nat (List.length monitors) - 1)) as [Heq|_];
    [contradiction|].
  split; reflexivity.
Qed.

(** ** The crop to the layout's aspect ratio *)

Lemma flt_asym (x y : F) : flt x y = true -> flt y x = false.
Proof.
  intros H. destruct (flt y x) eqn:E; [|reflexivity].
  pose proof (flt_trans _ _ _ H E) as Hxx. rewrite flt_irrefl in Hxx. discriminate.
Qed.

(** C4: which arm of lines 144-160 runs is decided by comparing
    [input_aspect = input_w / input_h] with
    [layout_aspect = total_width_in / max_height_in], and every run takes
    exactly one arm.  Strictly greater: a horizontal crop, centred
    ([left = (input_w - new_w) // 2]), to the width
    [new_w = round(input_h * layout_aspect)], the height untouched.
    Strictly less: a vertical crop, centred, to the height
    [new_h = round(input_w / layout_aspect)], the width untouched.
    Otherwise, and so whenever the two are equal: the box is the whole
    image and both sizes stay.  Every quantity is given by the float
    operations that compute it. *)
Theorem crop_branch_selection input_w input_h total_width max_height b cb :
  crop_to_layout input_w input_h total_width max_height = Ok (b, cb) ->
  exists iw ih ia la,
    of_int input_w = Ok iw /\ of_int input_h = Ok ih /\
    fdiv iw ih = Ok ia /\ fdiv total_width max_height = Ok la /\
    (b = CropHorizontal <-> flt la ia = true) /\
    (b = CropVertical <-> flt ia la = true) /\
    (b = NoCrop <-> flt la ia = false /\ flt ia la = false) /\
    (feq ia la = true -> b = NoCrop) /\
    match b with
    | CropHorizontal =>
        exists new_w, round (fmul ih la) = Ok new_w /\
          cb = (((input_w - new_w) / 2)%Z, 0%Z,
                ((input_w - new_w) / 2 + new_w)%Z, input_h) /\
          (box_right cb - box_left cb)%Z = new_w /\
          (box_bottom cb - box_top cb)%Z = input_h
    | CropVertical =>
        exists q new_h, fdiv iw la = Ok q /\ round q = Ok new_h /\
          cb = (0%Z, ((input_h - new_h) / 2)%Z,
                input_w, ((input_h - new_h) / 2 + new_h)%Z) /\
          (box_right cb - box_left cb)%Z = input_w /\
          (box_bottom cb - box_top cb)%Z = new_h
    | NoCrop =>
        cb = (0%Z, 0%Z, input_w, input_h)
    end.
Proof.
  unfold crop_to_layout, input_aspect, layout_aspect, new_input_w, new_input_h.
  destruct (of_int input_w) as [iw|] eqn:Hiw; [|discriminate].
  destruct (of_int input_h) as [ih|] eqn:Hih; [|discriminate].
  cbn [bind].
  destruct (fdiv iw ih) as [ia|] eqn:Hia; [|discriminate].
  cbn [bind].
  destruct (fdiv total_width max_height) as [la|] eqn:Hla; [|discriminate].
  cbn [bind]. intros H.
  exists iw, ih, ia, la. do 4 (split; [assumption || reflexivity|]).
  destruct (flt la ia) eqn:Hgt.
  - pose proof (flt_asym _ _ Hgt) as Hlt.
    destruct (round (fmul ih la)) as [nw|] eqn:Hnw; [|discriminate H].
    cbn [bind] in H. injection H as <- <-. rewrite Hlt.
    repeat split; try congruence; try (intros [? ?]; congruence).
    + intros Heq. apply feq_not_lt in Heq. destruct Heq; congruence.
    + exists nw. cbn [box_left box_top box_right box_bottom].
      repeat split; try assumption; try reflexivity; lia.
  - destruct (flt ia la) eqn:Hlt.
    + destruct (fdiv iw la) as [q|] eqn:Hq; [|discriminate H].
      cbn [bind] in H.
      destruct (round q) as [nh|] eqn:Hnh; [|discriminate H].
      cbn [bind] in H. injection H as <- <-.
      repeat split; try congruence; try (intros [? ?]; congruence).
      * intros Heq. apply feq_not_lt in Heq. destruct Heq; congruence.
      * exists q, nh. cbn [box_left box_top box_right box_bottom].
        repeat split; try assumption; try reflexivity; lia.
    + injection H as <- <-.
      repeat split; try congruence.
Qed.

(** ** Adjacent monitors *)

(** Lines 180-181 and 212-217 for two monitors in a row: the right
    fraction of the first is taken at [running_inch_x + width_in]; the gap,
    if the list has one at this index, is added after that, and the left
    fraction of the second is taken there.  The pixel offset moves by
    [width_scaled] alone. *)
Lemma adjacent_monitors total_width max_height out_height input_w input_h gaps_in
  ms its k m it it' :
  main_loop total_width max_height out_height input_w input_h gaps_in
    0 0%Z f0 ms = Ok its ->
  nth_error ms k = Some m ->
  nth_error its k = Some it ->
  nth_error its (S k) = Some it' ->
  fdiv (fadd (running_inch_x it) (width_in m)) total_width = Ok (right_frac it) /\
  running_inch_x it' =
    match nth_error gaps_in k with
    | Some gap => fadd (fadd (running_inch_x it) (width_in m)) gap
    | None => fadd (running_inch_x it) (width_in m)
    end /\
  fdiv (running_inch_x it') total_width = Ok (left_frac it') /\
  current_x it' = (current_x it + width_scaled m)%Z.
Proof.
  intros Hloop Hm Hit Hit'.
  pose proof (main_loop_Forall2 _ _ _ _ _ _ _ _ _ _ _ Hloop) as Hall.
  destruct (main_loop_next _ _ _ _ _ _ _ _ _ _ _ _ _ _ _ Hloop Hm Hit Hit')
    as (Hx & Hrun).
  pose proof (Forall2_nth_error _ _ _ Hall k _ _ Hm Hit) as Hs. cbv beta in Hs.
  apply slice_Ok in Hs.
  assert (exists m', nth_error ms (S k) = Some m') as (m' & Hm').
  { destruct (nth_error ms (S k)) eqn:E; [eauto|].
    apply nth_error_None in E. apply Forall2_length in Hall.
    assert (nth_error its (S k) <> None) as Hn by congruence.
    apply nth_error_Some in Hn. lia. }
  pose proof (Forall2_nth_error _ _ _ Hall (S k) _ _ Hm' Hit') as Hs'.
  cbv beta in Hs'. apply slice_Ok in Hs'.
  repeat split; tauto.
Qed.

(** C5, as the code has it: for adjacent monitors [k] and [k+1] the right
    fraction of [k] is taken at [running_inch_x + width_in]; the gap between
    them is added to that offset afterwards, and the left fraction of [k+1]
    is taken at the sum.  How far the gap moves the offset is a matter of
    the addition of floats: whenever the sum equals the offset it was added
    to, the two fractions are the same.  In the output the two pastes
    touch: [current_x] moves by [width_scaled] only. *)
Theorem gap_added_between_fractions total_width max_height out_height input_w
  input_h gaps_in ms its k m it it' gap :
  main_loop total_width max_height out_height input_w input_h gaps_in
    0 0%Z f0 ms = Ok its ->
  nth_error ms k = Some m ->
  nth_error its k = Some it ->
  nth_error its (S k) = Some it' ->
  nth_error gaps_in k = Some gap ->
  fdiv (fadd (running_inch_x it) (width_in m)) total_width = Ok (right_frac it) /\
  running_inch_x it' = fadd (fadd (running_inch_x it) (width_in m)) gap /\
  fdiv (fadd (fadd (running_inch_x it) (width_in m)) gap) total_width
    = Ok (left_frac it') /\
  (fadd (fadd (running_inch_x it) (width_in m)) gap
   = fadd (running_inch_x it) (width_in m) ->
   left_frac it' = right_frac it) /\
  current_x it' = (current_x it + width_scaled m)%Z.
Proof.
  intros Hloop Hm Hit Hit' Hgap.
  destruct (adjacent_monitors _ _ _ _ _ _ _ _ _ _ _ _ Hloop Hm Hit Hit')
    as (Hr & Hrun & Hl & Hx).
  rewrite Hgap in Hrun. rewrite Hrun in Hl.
  repeat split; try assumption.
  intros Hsame. rewrite Hsame in Hl. congruence.
Qed.

(** ** Runs that stop *)





(** How a run ends: it saved the image and returned, or it stopped with
    exit status 1 and saved nothing. *)
Lemma main_outcome argv monitors gaps_in image_open evs r :
  main argv monitors gaps_in image_open = (evs, r) ->
  (r = Continue tt /\ exists path img, In (ImageSave path img) evs) \/
  (exists f, r = Halt f /\ exit_status (Halt f) = 1%Z /\
             forall path img, ~ In (ImageSave path img) evs).
Proof.
  unfold main.
  destruct (Z.of_nat (List.length argv) <? 3)%Z.
  { simpl. intros H. injection H as <- <-. right. eexists. repeat split.
    intros ? ?. no_save. }
  destruct (negb _).
  { simpl. intros H. injection H as <- <-. right. eexists. repeat split.
    intros ? ?. no_save. }
  intros H.
  io_step H; [|right; eexists; repeat split; intros ? ?; no_save].
  io_step H; [|right; eexists; repeat split; intros ? ?; no_save].
  io_step H.
  io_step H; [|right; eexists; repeat split; intros ? ?; no_save].
  io_step H; [|right; eexists; repeat split; intros ? ?; no_save].
  io_step H. io_step H.
  io_step H; [|right; eexists; repeat split; intros ? ?; no_save].
  destruct a3 as [input_w input_h].
  io_step H.
  io_step H; [|right; eexists; repeat split; intros ? ?; no_save].
  destruct a3 as [branch crop_box].
  io_step H.
  destruct (crop_size crop_box) as [iw ih].
  io_step H; [|right; eexists; repeat split; intros ? ?; no_save].
  io_step H.
  unfold emit in H. injection H as <- <-.
  left. split; [reflexivity|]. do 2 eexists. simpl. do 5 right. left. reflexivity.
Qed.




End EngineFacts.

(** * Runs on doubles *)

(** ** The runs of the examples *)

(** The whole run on [desk]. *)
Example desk_run :
  main argv0 desk [4%float] (opened 2000 800) = (desk_trace, Continue tt).
Proof. vm_compute. reflexivity. Qed.

(** Lines 106-123 on [desk]. *)
Example desk_layout :
  mapM physical_size desk = Ok desk_ps /\
  mapM scaled_size desk_ps = Ok desk_ms /\
  total_width_in desk_ps [4%float] = 16%float /\
  max_height_in desk_ps = Ok 8%float.
Proof. repeat split; vm_compute; reflexivity. Qed.

(** Lines 174-217 on [desk], on the cropped image. *)
Example desk_loop :
  main_loop 16%float 8%float 1080 1600 800 [4%float] 0 0%Z 0%float desk_ms
  = Ok desk_its.
Proof. vm_compute. reflexivity. Qed.

(** The shipped configuration: the canvas is 6144 by 1440, and the three
    monitors are pasted at x = 0, 1536, 4096, standing on the bottom edge. *)
Example shipped_canvas :
  match main argv0 shipped shipped_gaps (opened 8000 3000) with
  | ([_; _; _; _; _; ImageSave _ img; _], Continue tt) =>
      canvas img = (6144, 1440)%Z /\
      map resized (pastes img) = [(1536, 864); (2560, 1440); (2048, 1152)]%Z /\
      map position (pastes img) = [(0, 576); (1536, 0); (4096, 288)]%Z
  | _ => False
  end.
Proof. vm_compute. repeat split. Qed.

(** On the shipped monitors the computed sizes meet Pythagoras and the
    aspect ratio up to the last bits of a double. *)
Example shipped_sizes_within_tolerance :
  match mapM physical_size shipped with
  | Ok ps =>
      forallb (fun p : physical float =>
                 let w := width_in p in
                 let h := height_in p in
                 let d := size_in p in
                 (PrimFloat.abs (w * w + h * h - d * d) <? 0x1p-40)%float &&
                 (PrimFloat.abs (w / h - 16 / 9) <? 0x1p-50)%float) ps
  | Raise _ => false
  end = true.
Proof. vm_compute. reflexivity. Qed.

(** ** The theorems at work on [desk] *)

(** The vertical ranges of [desk]: 0.5 to 0.875 for the small panel, 0 to
    0.75 for the large one, which sets [max_height_in = 6 + 2]. *)
Lemma vertical_sampling_range_desk :
  max_height_in (map phys desk_ms) = Ok 8%float /\
  main_loop 16%float 8%float 1080 1600 800 [4%float] 0 0%Z 0%float desk_ms
    = Ok desk_its /\
  (In 8%float
      (map (fun m : logical float => fadd (height_in m) (offset_bottom m)) desk_ms) /\
   forall m : logical float,
     In m desk_ms -> flt 8%float (fadd (height_in m) (offset_bottom m)) = false) /\
  Forall2 (vertical_range 8%float 800) desk_ms desk_its.
Proof.
  assert (max_height_in (map phys desk_ms) = Ok 8%float) as H1
    by (vm_compute; reflexivity).
  pose proof desk_loop as H2.
  exact (conj H1 (conj H2
    (vertical_sampling_range desk_ms [4%float] 16%float 8%float 1080 1600 800
       0 0%Z 0%float desk_its H1 H2))).
Defined.


(** The pastes of [desk]: at x = 0 and 1920, at y = 0 and 1080 - 960. *)
Lemma paste_positions_desk :
  main argv0 desk [4%float] (opened 2000 800) = (desk_trace, Continue tt) /\
  In (ImageSave "out.png" desk_image) desk_trace /\
  exists ws hs : list Z,
    Forall2 (fun (m : monitor float) w => scaled_px (width m) (scaling m) = Ok w)
      desk ws /\
    Forall2 (fun (m : monitor float) h => scaled_px (height m) (scaling m) = Ok h)
      desk hs /\
    List.length (pastes desk_image) = List.length desk /\
    forall i p, nth_error (pastes desk_image) i = Some p ->
      exists w h,
        nth_error ws i = Some w /\ nth_error hs i = Some h /\
        resized p = (w, h) /\
        position p = (isum (firstn i ws), (snd (canvas desk_image) - h)%Z).
Proof.
  pose proof desk_run as H1.
  assert (In (ImageSave "out.png" desk_image) desk_trace) as H2
    by (simpl; auto 10).
  exact (conj H1 (conj H2
    (paste_positions argv0 desk [4%float] (opened 2000 800) _ _ _ _ H1 H2))).
Defined.

(** Three images for the layout of [desk], 16 by 8 inches.  One of 2000 by
    800 pixels has aspect 2.5 against 2: the crop is horizontal, to
    800 * 2 = 1600 columns, 200 off each side.  One of 1600 by 1000 has
    aspect 1.6: the crop is vertical, to 1600 / 2 = 800 rows, 100 off the
    top and 100 off the bottom.  One of 1600 by 800 has aspect 2 and is
    left as it is. *)
Lemma crop_branch_selection_desk :
  (crop_to_layout 2000 800 16%float 8%float = Ok (CropHorizontal, (200, 0, 1800, 800)%Z) /\
   exists iw ih ia la : float,
     of_int 2000 = Ok iw /\ of_int 800 = Ok ih /\
     fdiv iw ih = Ok ia /\ fdiv 16%float 8%float = Ok la /\
     (CropHorizontal = CropHorizontal <-> flt la ia = true) /\
     (CropHorizontal = CropVertical <-> flt ia la = true) /\
     (CropHorizontal = NoCrop <-> flt la ia = false /\ flt ia la = false) /\
     (feq ia la = true -> CropHorizontal = NoCrop) /\
     exists new_w, round (fmul ih la) = Ok new_w /\
       (200, 0, 1800, 800)%Z
       = (((2000 - new_w) / 2)%Z, 0%Z, ((2000 - new_w) / 2 + new_w)%Z, 800%Z) /\
       (box_right (200, 0, 1800, 800)%Z - box_left (200, 0, 1800, 800)%Z)%Z = new_w /\
       (box_bottom (200, 0, 1800, 800)%Z - box_top (200, 0, 1800, 800)%Z)%Z = 800%Z) /\
  (crop_to_layout 1600 1000 16%float 8%float = Ok (CropVertical, (0, 100, 1600, 900)%Z) /\
   exists iw ih ia la : float,
     of_int 1600 = Ok iw /\ of_int 1000 = Ok ih /\
     fdiv iw ih = Ok ia /\ fdiv 16%float 8%float = Ok la /\
     (CropVertical = CropHorizontal <-> flt la ia = true) /\
     (CropVertical = CropVertical <-> flt ia la = true) /\
     (CropVertical = NoCrop <-> flt la ia = false /\ flt ia la = false) /\
     (feq ia la = true -> CropVertical = NoCrop) /\
     exists q new_h, fdiv iw la = Ok q /\ round q = Ok new_h /\
       (0, 100, 1600, 900)%Z
       = (0%Z, ((1000 - new_h) / 2)%Z, 1600%Z, ((1000 - new_h) / 2 + new_h)%Z) /\
       (box_right (0, 100, 1600, 900)%Z - box_left (0, 100, 1600, 900)%Z)%Z = 1600%Z /\
       (box_bottom (0, 100, 1600, 900)%Z - box_top (0, 100, 1600, 900)%Z)%Z = new_h) /\
  (crop_to_layout 1600 800 16%float 8%float = Ok (NoCrop, (0, 0, 1600, 800)%Z) /\
   exists iw ih ia la : float,
     of_int 1600 = Ok iw /\ of_int 800 = Ok ih /\
     fdiv iw ih = Ok ia /\ fdiv 16%float 8%float = Ok la /\
     (NoCrop = CropHorizontal <-> flt la ia = true) /\
     (NoCrop = CropVertical <-> flt ia la = true) /\
     (NoCrop = NoCrop <-> flt la ia = false /\ flt ia la = false) /\
     (feq ia la = true -> NoCrop = NoCrop) /\
     (0, 0, 1600, 800)%Z = (0%Z, 0%Z, 1600%Z, 800%Z)).
Proof.
  assert (crop_to_layout 2000 800 16%float 8%float
          = Ok (CropHorizontal, (200, 0, 1800, 800)%Z)) as H1
    by (vm_compute; reflexivity).
  assert (crop_to_layout 1600 1000 16%float 8%float
          = Ok (CropVertical, (0, 100, 1600, 900)%Z)) as H2
    by (vm_compute; reflexivity).
  assert (crop_to_layout 1600 800 16%float 8%float
          = Ok (NoCrop, (0, 0, 1600, 800)%Z)) as H3
    by (vm_compute; reflexivity).
  exact (conj (conj H1 (crop_branch_selection 2000 800 16%float 8%float _ _ H1))
          (conj (conj H2 (crop_branch_selection 1600 1000 16%float 8%float _ _ H2))
             (conj H3 (crop_branch_selection 1600 800 16%float 8%float _ _ H3)))).
Defined.

(** The two panels of [desk], 4 inches apart: the right fraction of the
    first is taken at 0 + 4, the left fraction of the second at 4 + 4. *)
Lemma gap_added_between_fractions_desk :
  exists m it it',
    main_loop 16%float 8%float 1080 1600 800 [4%float] 0 0%Z 0%float desk_ms
      = Ok desk_its /\
    nth_error desk_ms 0 = Some m /\
    nth_error desk_its 0 = Some it /\
    nth_error desk_its 1 = Some it' /\
    nth_error [4%float] 0 = Some 4%float /\
    fdiv (fadd (running_inch_x it) (width_in m)) 16%float = Ok (right_frac it) /\
    running_inch_x it' = fadd (fadd (running_inch_x it) (width_in m)) 4%float /\
    fdiv (fadd (fadd (running_inch_x it) (width_in m)) 4%float) 16%float
      = Ok (left_frac it') /\
    (fadd (fadd (running_inch_x it) (width_in m)) 4%float
     = fadd (running_inch_x it) (width_in m) ->
     left_frac it' = right_frac it) /\
    current_x it' = (current_x it + width_scaled m)%Z.
Proof.
  pose proof desk_loop as H1.
  do 3 eexists.
  exact (conj H1 (conj eq_refl (conj eq_refl (conj eq_refl (conj eq_refl
    (gap_added_between_fractions 16%float 8%float 1080 1600 800 [4%float]
       desk_ms desk_its 0%nat _ _ _ 4%float H1 eq_refl eq_refl eq_refl
       eq_refl)))))).
Defined.

(** The shipped monitors with one gap instead of two. *)
Lemma gap_count_mismatch_shipped :
  Z.of_nat (List.length [0.4%float])
    <> (Z.of_nat (List.length shipped) - 1)%Z /\
  main argv0 shipped [0.4%float] (opened 8000 3000)
    = ([Print GapsError], Halt (SystemExit 1)) /\
  exit_status (snd (main argv0 shipped [0.4%float] (opened 8000 3000))) = 1%Z.
Proof.
  assert (Z.of_nat (List.length [0.4%float])
          <> (Z.of_nat (List.length shipped) - 1)%Z) as H1
    by (simpl; discriminate).
  exact (conj H1
    (gap_count_mismatch argv0 shipped [0.4%float] (opened 8000 3000) H1)).
Defined.



(** ** Where the specification and the code part *)

(** Lines 174-217 on [pair_ms] with the gap 0. *)
Example touching_loop :
  main_loop 8%float 3%float 1080 800 300 [0%float] 0 0%Z 0%float pair_ms
  = Ok touching_its.
Proof. vm_compute. reflexivity. Qed.

(** Two panels with a gap of 0 inches, which the data model allows: the
    offset is 4 before the gap is added and 4 after. *)
Lemma zero_gap_keeps_offset :
  ~ (forall total_width max_height out_height input_w input_h
       (gaps_in : list float) ms its k (m : logical float) it it' gap,
       main_loop total_width max_height out_height input_w input_h gaps_in
         0 0%Z f0 ms = Ok its ->
       nth_error ms k = Some m ->
       nth_error its k = Some it ->
       nth_error its (S k) = Some it' ->
       nth_error gaps_in k = Some gap ->
       fdiv (fadd (running_inch_x it) (width_in m)) total_width
         = Ok (right_frac it) /\
       flt (fadd (running_inch_x it) (width_in m)) (running_inch_x it') = true).
Proof.
  intros H.
  destruct (H 8%float 3%float 1080%Z 800%Z 300%Z [0%float] pair_ms touching_its
              0%nat _ _ _ 0%float touching_loop eq_refl eq_refl eq_refl eq_refl)
    as (_ & Hlt).
  vm_compute in Hlt. discriminate Hlt.
Qed.

(** Lines 174-217 on [pair_ms] with a gap of 2^-60 inches: the doubles
    next to 4 are 2^-51 apart, so 4 + 2^-60 is 4, the layout is 8 wide and
    the iterations are those of the gap 0. *)
Example nudged_loop :
  main_loop 8%float 3%float 1080 800 300 [0x1p-60%float] 0 0%Z 0%float pair_ms
  = Ok touching_its.
Proof. vm_compute. reflexivity. Qed.

(** C5 as the specification words it: between adjacent monitors, adding
    the gap strictly increases the running inch offset.  It fails for the
    gap 0, and it fails for a gap above 0 as well: after a panel 4 inches
    wide a gap of 2^-60 inches leaves the offset at 4. *)
Lemma gap_need_not_move_offset :
  ~ (forall total_width max_height out_height input_w input_h
       (gaps_in : list float) ms its k (m : logical float) it it' gap,
       main_loop total_width max_height out_height input_w input_h gaps_in
         0 0%Z f0 ms = Ok its ->
       nth_error ms k = Some m ->
       nth_error its k = Some it ->
       nth_error its (S k) = Some it' ->
       nth_error gaps_in k = Some gap ->
       fdiv (fadd (running_inch_x it) (width_in m)) total_width
         = Ok (right_frac it) /\
       flt (fadd (running_inch_x it) (width_in m)) (running_inch_x it') = true) /\
  ~ (forall total_width max_height out_height input_w input_h
       (gaps_in : list float) ms its k (m : logical float) it it' gap,
       main_loop total_width max_height out_height input_w input_h gaps_in
         0 0%Z f0 ms = Ok its ->
       nth_error ms k = Some m ->
       nth_error its k = Some it ->
       nth_error its (S k) = Some it' ->
       nth_error gaps_in k = Some gap ->
       flt f0 gap = true ->
       flt (fadd (running_inch_x it) (width_in m)) (running_inch_x it') = true).
Proof.
  split; [exact zero_gap_keeps_offset|].
  intros H.
  assert (flt f0 0x1p-60%float = true) as Hpos by (vm_compute; reflexivity).
  pose proof (H 8%float 3%float 1080%Z 800%Z 300%Z [0x1p-60%float] pair_ms
                touching_its 0%nat _ _ _ 0x1p-60%float nudged_loop
                eq_refl eq_refl eq_refl eq_refl Hpos) as Hlt.
  vm_compute in Hlt. discriminate Hlt.
Qed.





(** Rounding: on one 5 inch panel raised by 0.3 inches the doubles give
    [max_height_in = 3.3], [bottom_frac = 1 - 0.3 / 3.3] and
    [top_frac = bottom_frac - 3 / 3.3 = -2^-53], a hair above the top of
    the layout; the pixel row it is rounded to is 0. *)
Example top_frac_rounding :
  match mapM physical_size [panel 1920 1080 1 5 4 3 0.3] with
  | Ok ps =>
      match max_height_in ps, mapM scaled_size ps with
      | Ok max_height, Ok ms =>
          match main_loop (total_width_in ps []) max_height 1080 400 300 []
                  0 0%Z 0%float ms with
          | Ok [it] => top_frac it = (-0x1p-53)%float /\ crop_top it = 0%Z
          | _ => False
          end
      | _, _ => False
      end
  | Raise _ => False
  end.
Proof. vm_compute. split; reflexivity. Qed.

(** The whole run on [laptops] with an image of 3840 by 1080 pixels: the
    crop leaves 3807 columns, and the region of the second panel ends at
    column 3807. *)
Example laptops_run :
  match main argv0 laptops [0.4%float] (opened 3840 1080) with
  | ([_; _; _; _; _; ImageSave _ img; _], Continue tt) =>
      cropped img = (16, 0, 3823, 1080)%Z /\
      map region (pastes img)
      = [(0, 54, 1824, 1080)%Z; (1887, 0, 3807, 1080)%Z]
  | _ => False
  end.
Proof. vm_compute. split; reflexivity. Qed.

(** C10 on doubles: the fractions of a valid layout can leave [[0, 1]].
    On [laptops] with the gap 0.4 the inch offset of the second panel plus
    its width is one unit in the last place above [total_width_in], and
    its right fraction is 1 + 2^-52; on the 5 inch panel raised by 0.3
    inches the top fraction is -2^-53, below 0. *)
Lemma fractions_leave_unit_interval :
  match mapM physical_size laptops with
  | Ok ps =>
      match max_height_in ps, mapM scaled_size ps with
      | Ok max_height, Ok ms =>
          match main_loop (total_width_in ps [0.4%float]) max_height 1080 3807 1080
                  [0.4%float] 0 0%Z 0%float ms with
          | Ok [_; it] =>
              right_frac it = 0x1.0000000000001p+0%float /\
              flt f1 (right_frac it) = true /\
              crop_right it = 3807%Z
          | _ => False
          end
      | _, _ => False
      end
  | Raise _ => False
  end /\
  match mapM physical_size [panel 1920 1080 1 5 4 3 0.3] with
  | Ok ps =>
      match max_height_in ps, mapM scaled_size ps with
      | Ok max_height, Ok ms =>
          match main_loop (total_width_in ps []) max_height 1080 400 300 []
                  0 0%Z 0%float ms with
          | Ok [it] =>
              top_frac it = (-0x1p-53)%float /\
              flt (top_frac it) f0 = true /\
              crop_top it = 0%Z
          | _ => False
          end
      | _, _ => False
      end
  | Raise _ => False
  end.
Proof. vm_compute. repeat split; reflexivity. Qed.

(** * More about runs of [main] *)

(** ** Running [main] forward *)

Lemma io_bind_emit_eq {F B : Type} (e : event F) (k : unit -> io F B)
  (evs : list (event F)) (r : stop B) :
  k tt = (evs, r) -> io_bind (emit e) k = (e :: evs, r).
Proof. unfold io_bind, emit. intros ->. reflexivity. Qed.

Lemma io_bind_lift_eq {F A B : Type} (c : exc A) (a : A) (k : A -> io F B)
  (res : io F B) :
  c = Ok a -> k a = res -> io_bind (lift c) k = res.
Proof. intros -> <-. unfold io_bind, lift. destruct (k a). reflexivity. Qed.

Lemma io_bind_lift_raise {F A B : Type} (c : exc A) (e : exn) (k : A -> io F B) :
  c = Raise e -> io_bind (lift c) k = ([], Halt (Uncaught e)).
Proof. intros ->. reflexivity. Qed.

(** One line of [main] forward: an event is put on the trace, or a
    computation returns the value of [E]. *)
Ltac io_emit := apply io_bind_emit_eq; cbv beta.

Ltac io_ok E := eapply io_bind_lift_eq; [exact E|]; cbv beta iota.

Lemma isum_cons (x : Z) (xs : list Z) : isum (x :: xs) = (x + isum xs)%Z.
Proof. unfold isum at 1. simpl. apply fold_left_Zadd. Qed.

Lemma isum_firstn_S (xs : list Z) : forall k x,
  nth_error xs k = Some x -> isum (firstn (S k) xs) = (isum (firstn k xs) + x)%Z.
Proof.
  induction xs as [|y xs IH]; intros [|k] x H; simpl in H; try discriminate.
  - injection H as <-. reflexivity.
  - change (firstn (S (S k)) (y :: xs)) with (y :: firstn (S k) xs).
    change (firstn (S k) (y :: xs)) with (y :: firstn k xs).
    rewrite !isum_cons, (IH k x H). lia.
Qed.

Lemma isum_nonneg (xs : list Z) : Forall (fun x => 0 <= x)%Z xs -> (0 <= isum xs)%Z.
Proof.
  induction 1 as [|x xs Hx _ IH]; [reflexivity|].
  rewrite isum_cons. lia.
Qed.

Lemma isum_firstn_le (xs : list Z) :
  Forall (fun x => 0 <= x)%Z xs ->
  forall k, (0 <= isum (firstn k xs) <= isum xs)%Z.
Proof.
  induction 1 as [|x xs Hx Hxs IH]; intros k.
  - rewrite firstn_nil. unfold isum. simpl. lia.
  - destruct k as [|k].
    + pose proof (isum_nonneg xs Hxs). rewrite isum_cons.
      change (isum (firstn 0 (x :: xs))) with 0%Z. lia.
    + change (firstn (S k) (x :: xs)) with (x :: firstn k xs).
      rewrite !isum_cons. specialize (IH k). lia.
Qed.

Lemma pastes_of_nth_paste {F : Type} (ms : list (logical F)) :
  forall (its : list (iteration F)) k m it,
  nth_error ms k = Some m -> nth_error its k = Some it ->
  nth_error (pastes_of ms its) k = Some (paste_of m it).
Proof.
  induction ms as [|m0 ms IH]; intros [|it0 its] [|k] m it Hm Hit; simpl in *;
    try discriminate.
  - injection Hm as <-. injection Hit as <-. reflexivity.
  - eauto.
Qed.

Lemma nth_error_same_length {A B : Type} (xs : list A) (ys : list B) (k : nat) (x : A) :
  List.length ys = List.length xs -> nth_error xs k = Some x ->
  exists y, nth_error ys k = Some y.
Proof.
  intros Hlen Hx. destruct (nth_error ys k) as [y|] eqn:E; [eauto|].
  apply nth_error_None in E.
  assert (nth_error xs k <> None) as Hn by congruence.
  apply nth_error_Some in Hn. lia.
Qed.

Section RunFacts.

Context {F : Type} {PF : PyFloat F} {PL : PyFloatLaws F}.

(** A run whose lines all return goes through to line 220: this is its
    trace and the image it saved. *)
Lemma main_returns argv monitors gaps_in image_open ps max_height ms out_height
  input_w input_h branch crop_box its :
  (3 <= Z.of_nat (List.length argv))%Z ->
  Z.of_nat (List.length gaps_in) = (Z.of_nat (List.length monitors) - 1)%Z ->
  mapM physical_size monitors = Ok ps ->
  max_height_in ps = Ok max_height ->
  mapM scaled_size ps = Ok ms ->
  output_height ms = Ok out_height ->
  image_open (nth 1 argv EmptyString) = Ok (input_w, input_h) ->
  crop_to_layout input_w input_h (total_width_in ps gaps_in) max_height
    = Ok (branch, crop_box) ->
  main_loop (total_width_in ps gaps_in) max_height out_height
    (fst (crop_size crop_box)) (snd (crop_size crop_box)) gaps_in 0 0%Z f0 ms
    = Ok its ->
  main argv monitors gaps_in image_open =
    (completed_trace argv (total_width_in ps gaps_in) max_height
       (total_output_width ms) out_height input_w input_h branch
       {| canvas := (total_output_width ms, out_height);
          cropped := crop_box;
          pastes := pastes_of ms its |},
     Continue tt).
Proof.
  intros Hargv Hcount Hps Hmax Hms Hoh Hopen Hcrop Hloop.
  unfold main, completed_trace.
  apply Z.ltb_ge in Hargv. rewrite Hargv.
  apply Z.eqb_eq in Hcount. rewrite Hcount. cbn [negb].
  io_ok Hps. io_ok Hmax. io_emit. io_ok Hms. io_ok Hoh. io_emit. io_emit.
  io_ok Hopen. io_emit. io_ok Hcrop. io_emit.
  destruct (crop_size crop_box) as [iw ih]. cbn [fst snd] in Hloop.
  io_ok Hloop. io_emit. reflexivity.
Qed.

(** The run up to line 133. *)
Lemma main_to_open argv monitors gaps_in image_open ps max_height ms out_height
  (rest : io F unit) :
  (3 <= Z.of_nat (List.length argv))%Z ->
  Z.of_nat (List.length gaps_in) = (Z.of_nat (List.length monitors) - 1)%Z ->
  mapM physical_size monitors = Ok ps ->
  max_height_in ps = Ok max_height ->
  mapM scaled_size ps = Ok ms ->
  output_height ms = Ok out_height ->
  (forall k : Z * Z -> io F unit,
     io_bind (lift (image_open (nth 1 argv EmptyString))) k = rest) ->
  main argv monitors gaps_in image_open =
    (trace_to_open argv (total_width_in ps gaps_in) max_height
       (total_output_width ms) out_height ++ fst rest, snd rest).
Proof.
  intros Hargv Hcount Hps Hmax Hms Hoh Hrest.
  unfold main, trace_to_open.
  apply Z.ltb_ge in Hargv. rewrite Hargv.
  apply Z.eqb_eq in Hcount. rewrite Hcount. cbn [negb].
  io_ok Hps. io_ok Hmax. io_emit. io_ok Hms. io_ok Hoh. io_emit. io_emit.
  rewrite Hrest. destruct rest. reflexivity.
Qed.

(** What the saved image holds, paste by paste. *)
Lemma saved_pastes argv monitors gaps_in image_open evs r path img :
  main argv monitors gaps_in image_open = (evs, r) ->
  In (ImageSave path img) evs ->
  exists ms : list (logical F),
    ms <> [] /\
    List.length (pastes img) = List.length ms /\
    fst (canvas img) = isum (map width_scaled ms) /\
    output_height ms = Ok (snd (canvas img)) /\
    forall k p, nth_error (pastes img) k = Some p ->
      exists m, nth_error ms k = Some m /\
        resized p = (width_scaled m, height_scaled m) /\
        position p = (isum (firstn k (map width_scaled ms)),
                      (snd (canvas img) - height_scaled m)%Z).
Proof.
  intros Hrun Hsave.
  destruct (main_saved _ _ _ _ _ _ _ _ Hrun Hsave)
    as (ps & maxh & ms & its & iw & ih & b & Hps & _ & Hms & Hw & Hh & _ & _
        & Hloop & Hpastes & _ & _ & _ & Hcount).
  pose proof (main_loop_Forall2 _ _ _ _ _ _ _ _ _ _ _ Hloop) as Hall.
  exists ms. repeat split.
  - apply mapM_length in Hps. apply mapM_length in Hms.
    intros ->. simpl in Hms. lia.
  - rewrite Hpastes. apply pastes_of_length. symmetry.
    eapply Forall2_length. exact Hall.
  - exact Hw.
  - exact Hh.
  - intros k p Hp. rewrite Hpastes in Hp.
    destruct (pastes_of_nth _ _ _ _ Hp) as (m & it & Hm & Hit & ->).
    exists m. split; [exact Hm|]. split; [reflexivity|].
    unfold paste_of. cbn [position].
    rewrite (main_loop_current_x _ _ _ _ _ _ _ _ _ _ _ _ _ Hloop Hit).
    pose proof (Forall2_nth_error _ _ _ Hall k _ _ Hm Hit) as Hs. cbv beta in Hs.
    apply slice_Ok in Hs. destruct Hs as (_&_&_&_&_&_&_&_&_&_&_&_&Hy).
    rewrite Hy. reflexivity.
Qed.

(** ** The two checks *)

(** X1: with fewer than two arguments after the script name the run is the
    usage line and [sys.exit(1)], whatever the configuration holds: the
    monitor list and the gaps are not looked at, and no file is touched. *)
Theorem usage_before_configuration argv (monitors : list (monitor F)) gaps_in
  image_open :
  (Z.of_nat (List.length argv) < 3)%Z ->
  main argv monitors gaps_in image_open = ([Print Usage], Halt (SystemExit 1)) /\
  exit_status (snd (main argv monitors gaps_in image_open)) = 1%Z.
Proof.
  intros Hargv. apply Z.ltb_lt in Hargv. unfold main. rewrite Hargv.
  split; reflexivity.
Qed.

(** X2: an empty monitor list never gets past line 98: a list has no
    length of -1, so every [gaps_in] fails the count, and the [max()] of
    an empty sequence at line 115 is never reached. *)
Theorem empty_layout_is_gap_error argv (gaps_in : list F) image_open :
  main argv [] gaps_in image_open =
    ([Print (if (Z.of_nat (List.length argv) <? 3)%Z then Usage else GapsError)],
     Halt (SystemExit 1)).
Proof.
  unfold main. destruct (Z.of_nat (List.length argv) <? 3)%Z; [reflexivity|].
  destruct (Z.eqb_spec (Z.of_nat (List.length gaps_in))
              (Z.of_nat (List.length (@nil (monitor F))) - 1)) as [Heq|_].
  - simpl in Heq. lia.
  - reflexivity.
Qed.

(** ** The input image *)

(** X3: when [Image.open] raises, the run ends there with the exception
    uncaught: the two dimension messages are out, the file named by
    [sys.argv[1]] is the only one touched, and nothing is written. *)
Theorem open_failure_stops argv monitors gaps_in image_open ps max_height ms
  out_height e :
  (3 <= Z.of_nat (List.length argv))%Z ->
  Z.of_nat (List.length gaps_in) = (Z.of_nat (List.length monitors) - 1)%Z ->
  mapM physical_size monitors = Ok ps ->
  max_height_in ps = Ok max_height ->
  mapM scaled_size ps = Ok ms ->
  output_height ms = Ok out_height ->
  image_open (nth 1 argv EmptyString) = Raise e ->
  main argv monitors gaps_in image_open =
    (trace_to_open argv (total_width_in ps gaps_in) max_height
       (total_output_width ms) out_height,
     Halt (Uncaught e)) /\
  exit_status (snd (main argv monitors gaps_in image_open)) = 1%Z.
Proof.
  intros Hargv Hcount Hps Hmax Hms Hoh Hopen.
  rewrite (main_to_open argv monitors gaps_in image_open ps max_height ms out_height
             ([], Halt (Uncaught e)) Hargv Hcount Hps Hmax Hms Hoh).
  - cbn [fst snd]. rewrite app_nil_r. split; reflexivity.
  - intros k. apply io_bind_lift_raise. exact Hopen.
Qed.

(** X4: an image of height 0 stops the run at line 139, where the width
    is divided by it: the input dimensions are printed, then
    [ZeroDivisionError] goes uncaught and nothing is written. *)
Theorem zero_height_image_stops argv monitors gaps_in image_open ps max_height ms
  out_height input_w x :
  (3 <= Z.of_nat (List.length argv))%Z ->
  Z.of_nat (List.length gaps_in) = (Z.of_nat (List.length monitors) - 1)%Z ->
  mapM physical_size monitors = Ok ps ->
  max_height_in ps = Ok max_height ->
  mapM scaled_size ps = Ok ms ->
  output_height ms = Ok out_height ->
  image_open (nth 1 argv EmptyString) = Ok (input_w, 0%Z) ->
  of_int input_w = Ok x ->
  main argv monitors gaps_in image_open =
    (trace_to_open argv (total_width_in ps gaps_in) max_height
       (total_output_width ms) out_height
     ++ [Print (InputDimensions input_w 0)],
     Halt (Uncaught ZeroDivisionError)).
Proof.
  intros Hargv Hcount Hps Hmax Hms Hoh Hopen Hw.
  assert (crop_to_layout input_w 0 (total_width_in ps gaps_in) max_height
          = Raise ZeroDivisionError) as Hcrop.
  { unfold crop_to_layout, input_aspect. rewrite Hw, of_int_zero. cbn [bind].
    rewrite (fdiv_by_zero _ _ feq_zero). reflexivity. }
  unfold main, trace_to_open.
  apply Z.ltb_ge in Hargv. rewrite Hargv.
  apply Z.eqb_eq in Hcount. rewrite Hcount. cbn [negb].
  io_ok Hps. io_ok Hmax. io_emit. io_ok Hms. io_ok Hoh. io_emit. io_emit.
  io_ok Hopen. io_emit.
  apply io_bind_lift_raise. exact Hcrop.
Qed.

(** X5: no file is touched before the layout is computed.  A run that
    opened the input image has passed both checks and computed every
    physical size, the layout's height, every scaled size and the height
    of the output without an exception, and has printed the two dimension
    messages first; a configuration that makes one of these lines raise is
    reported before [Image.open] is called. *)
Theorem image_opened_after_layout argv (monitors : list (monitor F)) gaps_in
  image_open evs r path :
  main argv monitors gaps_in image_open = (evs, r) ->
  In (ImageOpen path) evs ->
  (3 <= Z.of_nat (List.length argv))%Z /\
  Z.of_nat (List.length gaps_in) = (Z.of_nat (List.length monitors) - 1)%Z /\
  exists ps max_height ms out_height rest,
    mapM physical_size monitors = Ok ps /\
    max_height_in ps = Ok max_height /\
    mapM scaled_size ps = Ok ms /\
    output_height ms = Ok out_height /\
    evs = trace_to_open argv (total_width_in ps gaps_in) max_height
            (total_output_width ms) out_height ++ rest.
Proof.
  unfold main.
  destruct (Z.ltb_spec (Z.of_nat (List.length argv)) 3) as [Hargv|Hargv].
  { simpl. intros H. injection H as <- <-. no_save. }
  destruct (Z.eqb_spec (Z.of_nat (List.length gaps_in))
              (Z.of_nat (List.length monitors) - 1)) as [Hgaps|Hgaps];
    simpl negb; cbv iota.
  2:{ simpl. intros H. injection H as <- <-. no_save. }
  intros H.
  io_step H; [|no_save].
  io_step H; [|no_save].
  io_step H.
  io_step H; [|no_save].
  io_step H; [|no_save].
  io_step H. io_step H.
  intros _. split; [exact Hargv|]. split; [exact Hgaps|].
  do 5 eexists. repeat split; eassumption || reflexivity.
Qed.

(** ** How a run ends *)

(** X7: a run that returns has done these seven things in this order and
    nothing else: printed the layout's size in inches ([total_width_in]
    and [max_height_in] as lines 112 and 115 computed them) and the size
    of the canvas in pixels, opened [sys.argv[1]], printed the size of the
    image it found and which crop it takes, saved one image to
    [sys.argv[2]] and said so.  The image is opened once and written
    once, after every line of the script that can raise. *)
Theorem completed_run_trace argv (monitors : list (monitor F)) gaps_in image_open
  evs :
  main argv monitors gaps_in image_open = (evs, Continue tt) ->
  exists ps max_height input_w input_h branch img,
    mapM physical_size monitors = Ok ps /\
    max_height_in ps = Ok max_height /\
    image_open (nth 1 argv EmptyString) = Ok (input_w, input_h) /\
    crop_to_layout input_w input_h (total_width_in ps gaps_in) max_height
      = Ok (branch, cropped img) /\
    evs = completed_trace argv (total_width_in ps gaps_in) max_height
            (fst (canvas img)) (snd (canvas img)) input_w input_h branch img.
Proof.
  intros Hrun.
  destruct (main_outcome _ _ _ _ _ _ Hrun)
    as [(_ & path & img & Hsave)|(f & Hf & _)]; [|discriminate Hf].
  destruct (main_saved _ _ _ _ _ _ _ _ Hrun Hsave)
    as (ps & maxh & ms & its & iw & ih & b & Hps & Hmax & Hms & Hw & Hh & Hopen
        & Hcrop & Hloop & Hpastes & _ & _ & Hargv & Hcount).
  pose proof (main_returns _ _ _ _ _ _ _ _ _ _ _ _ _
                Hargv Hcount Hps Hmax Hms Hh Hopen Hcrop Hloop) as Hfull.
  rewrite Hrun in Hfull. injection Hfull as ->.
  exists ps, maxh, iw, ih, b, img.
  repeat split; try assumption.
  destruct img as [[cw ch] cb pl]. simpl in *. subst. reflexivity.
Qed.

(** ** The pastes on the canvas *)

(** X8: the pastes fill the width of the canvas from left to right with
    nothing between them: the first starts at x = 0, each next one starts
    where the one before ends, and the last one ends at the right edge.
    When no pasted width is negative every paste lies between the left and
    the right edge of the canvas. *)
Theorem pastes_tile_canvas_width argv (monitors : list (monitor F)) gaps_in
  image_open evs r path img :
  main argv monitors gaps_in image_open = (evs, r) ->
  In (ImageSave path img) evs ->
  (exists p, nth_error (pastes img) 0 = Some p /\ fst (position p) = 0%Z) /\
  (forall k p p',
     nth_error (pastes img) k = Some p ->
     nth_error (pastes img) (S k) = Some p' ->
     fst (position p') = (fst (position p) + fst (resized p))%Z) /\
  (forall k p,
     nth_error (pastes img) k = Some p ->
     nth_error (pastes img) (S k) = None ->
     (fst (position p) + fst (resized p))%Z = fst (canvas img)) /\
  ((forall p, In p (pastes img) -> (0 <= fst (resized p))%Z) ->
   forall p, In p (pastes img) ->
     (0 <= fst (position p))%Z /\
     (fst (position p) + fst (resized p) <= fst (canvas img))%Z).
Proof.
  intros Hrun Hsave.
  destruct (saved_pastes _ _ _ _ _ _ _ _ Hrun Hsave)
    as (ms & Hne & Hlen & Hw & _ & Hpaste).
  assert (forall k p, nth_error (pastes img) k = Some p ->
            nth_error (map width_scaled ms) k = Some (fst (resized p)) /\
            fst (position p) = isum (firstn k (map width_scaled ms))) as Hat.
  { intros k p Hp. destruct (Hpaste k p Hp) as (m & Hm & Hr & Hpos).
    rewrite nth_error_map, Hm, Hr, Hpos. split; reflexivity. }
  split; [|split; [|split]].
  - destruct (nth_error (pastes img) 0) as [p|] eqn:Hp.
    + exists p. split; [reflexivity|].
      destruct (Hat 0%nat p Hp) as (_ & ->). reflexivity.
    + apply nth_error_None in Hp. destruct ms; [contradiction|].
      simpl in Hlen. lia.
  - intros k p p' Hp Hp'.
    destruct (Hat k p Hp) as (Hwk & ->). destruct (Hat (S k) p' Hp') as (_ & ->).
    apply isum_firstn_S. exact Hwk.
  - intros k p Hp Hnone.
    destruct (Hat k p Hp) as (Hwk & ->). rewrite Hw.
    rewrite <- (isum_firstn_S _ _ _ Hwk). f_equal.
    apply firstn_all2. rewrite length_map, <- Hlen.
    apply nth_error_None. exact Hnone.
  - intros Hpos.
    assert (Forall (fun x => (0 <= x)%Z) (map width_scaled ms)) as Hall.
    { apply Forall_forall. intros w Hin. apply In_nth_error in Hin.
      destruct Hin as (j & Hj). rewrite nth_error_map in Hj.
      destruct (nth_error ms j) as [m|] eqn:Hm; [|discriminate Hj].
      simpl in Hj. injection Hj as <-.
      destruct (nth_error_same_length ms (pastes img) j m Hlen Hm) as (p & Hp).
      destruct (Hat j p Hp) as (Hwj & _).
      rewrite nth_error_map, Hm in Hwj. simpl in Hwj. injection Hwj as ->.
      apply Hpos. eapply nth_error_In. exact Hp. }
    intros p Hin. apply In_nth_error in Hin. destruct Hin as (k & Hp).
    destruct (Hat k p Hp) as (Hwk & ->). split.
    + apply isum_firstn_le. exact Hall.
    + rewrite Hw, <- (isum_firstn_S _ _ _ Hwk). apply isum_firstn_le. exact Hall.
Qed.

(** X9: every paste stands on the bottom edge of the canvas and none
    reaches above its top: [y + height] is the height of the canvas and
    [y >= 0].  The tallest paste is as high as the canvas and starts at
    [y = 0]; above a shorter one the canvas keeps its background. *)
Theorem pastes_stand_on_bottom_edge argv (monitors : list (monitor F)) gaps_in
  image_open evs r path img :
  main argv monitors gaps_in image_open = (evs, r) ->
  In (ImageSave path img) evs ->
  (forall p, In p (pastes img) ->
     (0 <= snd (position p))%Z /\
     (snd (position p) + snd (resized p))%Z = snd (canvas img)) /\
  exists p, In p (pastes img) /\
    snd (position p) = 0%Z /\ snd (resized p) = snd (canvas img).
Proof.
  intros Hrun Hsave.
  destruct (saved_pastes _ _ _ _ _ _ _ _ Hrun Hsave)
    as (ms & Hne & Hlen & _ & Hh & Hpaste).
  apply (py_max_spec Z.ltb Z.ltb_irrefl Zltb_trans) in Hh.
  destruct Hh as (Htop & Hup).
  split.
  - intros p Hin. apply In_nth_error in Hin. destruct Hin as (k & Hp).
    destruct (Hpaste k p Hp) as (m & Hm & -> & ->). cbn [fst snd].
    assert (In (height_scaled m) (map height_scaled ms)) as Hin.
    { apply in_map. eapply nth_error_In. exact Hm. }
    specialize (Hup _ Hin). apply Z.ltb_ge in Hup. lia.
  - apply in_map_iff in Htop. destruct Htop as (m & Hm & Hin).
    apply In_nth_error in Hin. destruct Hin as (k & Hk).
    destruct (nth_error_same_length ms (pastes img) k m Hlen Hk) as (p & Hp).
    exists p. split; [eapply nth_error_In; exact Hp|].
    destruct (Hpaste k p Hp) as (m' & Hm' & -> & ->). cbn [fst snd].
    rewrite Hk in Hm'. injection Hm' as <-. lia.
Qed.

(** ** The crop box *)

(** X10: the crop is centred.  A horizontal crop keeps the full height and
    takes as much off the left as off the right, or one pixel more off the
    right when the width to remove is odd; a vertical crop does the same
    with top and bottom.  Without a crop the box is the whole image. *)
Theorem crop_is_centred input_w input_h (total_width max_height : F) b cb :
  crop_to_layout input_w input_h total_width max_height = Ok (b, cb) ->
  match b with
  | CropHorizontal =>
      box_top cb = 0%Z /\ box_bottom cb = input_h /\
      (0 <= (input_w - box_right cb) - box_left cb <= 1)%Z
  | CropVertical =>
      box_left cb = 0%Z /\ box_right cb = input_w /\
      (0 <= (input_h - box_bottom cb) - box_top cb <= 1)%Z
  | NoCrop => cb = (0%Z, 0%Z, input_w, input_h)
  end.
Proof.
  unfold crop_to_layout. intros H. bind_inv H. bind_inv H.
  destruct (flt _ _).
  - bind_inv H. injection H as <- <-. cbn [box_top box_bottom box_left box_right].
    repeat split; try reflexivity; Z.to_euclidean_division_equations; lia.
  - destruct (flt _ _).
    + bind_inv H. injection H as <- <-. cbn [box_top box_bottom box_left box_right].
      repeat split; try reflexivity; Z.to_euclidean_division_equations; lia.
    + injection H as <- <-. reflexivity.
Qed.

End RunFacts.

(** * What doubles do with zero *)

(** [0.0 / y], when it does not raise, is a zero or a NaN. *)
Lemma div_zero_by (y q : float) :
  Binary64.div 0%float y = Ok q ->
  Prim2SF q = S754_nan \/ exists s, Prim2SF q = S754_zero s.
Proof.
  unfold Binary64.div. destruct (PrimFloat.eqb y 0%float) eqn:E; [discriminate|].
  intros H. injection H as <-.
  rewrite eqb_spec in E. rewrite div_spec.
  change (Prim2SF 0%float) with (S754_zero false) in *.
  destruct (Prim2SF y) as [sy|sy| |sy my ey]; simpl in *.
  - discriminate E.
  - right. eauto.
  - left. reflexivity.
  - right. eauto.
Qed.

(** [int(round(frac * n))] for a fraction that is a zero or a NaN: 0, or
    [round] raises. *)
Lemma to_px_of_zero (frac : float) (n px : Z) :
  Prim2SF frac = S754_nan \/ (exists s, Prim2SF frac = S754_zero s) ->
  to_px frac n = Ok px -> px = 0%Z.
Proof.
  intros Hfrac. unfold to_px. intros H. bind_inv H.
  cbv [round fmul binary64 Binary64.round] in H. rewrite mul_spec in H.
  destruct Hfrac as [Hnan|(s & Hzero)].
  - rewrite Hnan in H. simpl in H. discriminate H.
  - rewrite Hzero in H.
    destruct (Prim2SF a) as [sa|sa| |sa ma ea]; simpl in H;
      try discriminate H; injection H as <-; reflexivity.
Qed.

(** X16: on doubles the first monitor's region starts at the left edge of
    the cropped image, pixel column 0, in every run that saved: its left
    fraction is [0.0 / total_width_in], a zero whatever the layout's width
    is, and a zero times the width of the image rounds to 0. *)
Theorem first_region_starts_at_left_edge argv (monitors : list (monitor float))
  gaps_in image_open evs r path img :
  main argv monitors gaps_in image_open = (evs, r) ->
  In (ImageSave path img) evs ->
  exists first,
    nth_error (pastes img) 0 = Some first /\ box_left (region first) = 0%Z.
Proof.
  intros Hrun Hsave.
  destruct (main_saved _ _ _ _ _ _ _ _ Hrun Hsave)
    as (ps & maxh & ms & its & iw & ih & b & Hps & _ & Hms & _ & _ & _ & _
        & Hloop & Hpastes & _ & _ & _ & Hcount).
  pose proof (main_loop_Forall2 _ _ _ _ _ _ _ _ _ _ _ Hloop) as Hall.
  pose proof (Forall2_length Hall) as Hlen.
  pose proof (mapM_length _ _ _ Hps) as Hlps.
  pose proof (mapM_length _ _ _ Hms) as Hlms.
  destruct (nth_error ms 0) as [m0|] eqn:Hm0;
    [|apply nth_error_None in Hm0; lia].
  destruct (nth_error its 0) as [it0|] eqn:Hit0;
    [|apply nth_error_None in Hit0; lia].
  exists (paste_of m0 it0). rewrite Hpastes.
  split; [apply pastes_of_nth_paste; assumption|].
  cbn [paste_of region box_left].
  destruct (main_loop_first _ _ _ _ _ _ _ _ _ _ _ _ Hloop Hit0) as (_ & Hrun0).
  pose proof (Forall2_nth_error _ _ _ Hall 0%nat _ _ Hm0 Hit0) as Hs.
  cbv beta in Hs. apply slice_Ok in Hs.
  destruct Hs as (_ & _ & Hl & _ & Hcl & _).
  rewrite Hrun0 in Hl.
  apply (to_px_of_zero (left_frac it0) _ _ (div_zero_by _ _ Hl) Hcl).
Qed.

(** * The further theorems at work *)

(** ** On doubles *)

(** The shipped configuration, started without arguments. *)
Lemma usage_before_configuration_shipped :
  (Z.of_nat (List.length ["create_wallpaper.py"%string]) < 3)%Z /\
  main ["create_wallpaper.py"%string] shipped shipped_gaps (opened 8000 3000)
    = ([Print Usage], Halt (SystemExit 1)) /\
  exit_status
    (snd (main ["create_wallpaper.py"%string] shipped shipped_gaps (opened 8000 3000)))
    = 1%Z.
Proof.
  assert (Z.of_nat (List.length ["create_wallpaper.py"%string]) < 3)%Z as H1
    by (simpl; lia).
  exact (conj H1
    (usage_before_configuration ["create_wallpaper.py"%string] shipped shipped_gaps
       (opened 8000 3000) H1)).
Defined.

(** [desk], with an input file that is not there. *)
Lemma open_failure_stops_desk :
  (3 <= Z.of_nat (List.length argv0))%Z /\
  Z.of_nat (List.length [4%float]) = (Z.of_nat (List.length desk) - 1)%Z /\
  mapM physical_size desk = Ok desk_ps /\
  max_height_in desk_ps = Ok 8%float /\
  mapM scaled_size desk_ps = Ok desk_ms /\
  output_height desk_ms = Ok 1080%Z /\
  missing (nth 1 argv0 EmptyString) = Raise OSError /\
  main argv0 desk [4%float] missing =
    (trace_to_open argv0 (total_width_in desk_ps [4%float]) 8%float
       (total_output_width desk_ms) 1080,
     Halt (Uncaught OSError)) /\
  exit_status (snd (main argv0 desk [4%float] missing)) = 1%Z.
Proof.
  assert (3 <= Z.of_nat (List.length argv0))%Z as H1 by (simpl; lia).
  assert (Z.of_nat (List.length [4%float]) = (Z.of_nat (List.length desk) - 1)%Z)
    as H2 by reflexivity.
  assert (mapM physical_size desk = Ok desk_ps) as H3 by (vm_compute; reflexivity).
  assert (max_height_in desk_ps = Ok 8%float) as H4 by (vm_compute; reflexivity).
  assert (mapM scaled_size desk_ps = Ok desk_ms) as H5 by (vm_compute; reflexivity).
  assert (output_height desk_ms = Ok 1080%Z) as H6 by (vm_compute; reflexivity).
  assert (missing (nth 1 argv0 EmptyString) = Raise OSError) as H7 by reflexivity.
  exact (conj H1 (conj H2 (conj H3 (conj H4 (conj H5 (conj H6 (conj H7
    (open_failure_stops argv0 desk [4%float] missing desk_ps 8%float desk_ms 1080
       OSError H1 H2 H3 H4 H5 H6 H7)))))))).
Defined.

(** [desk], with an image 800 pixels wide and 0 high. *)
Lemma zero_height_image_stops_desk :
  (3 <= Z.of_nat (List.length argv0))%Z /\
  Z.of_nat (List.length [4%float]) = (Z.of_nat (List.length desk) - 1)%Z /\
  mapM physical_size desk = Ok desk_ps /\
  max_height_in desk_ps = Ok 8%float /\
  mapM scaled_size desk_ps = Ok desk_ms /\
  output_height desk_ms = Ok 1080%Z /\
  opened 800 0 (nth 1 argv0 EmptyString) = Ok (800%Z, 0%Z) /\
  of_int 800 = Ok 800%float /\
  main argv0 desk [4%float] (opened 800 0) =
    (trace_to_open argv0 (total_width_in desk_ps [4%float]) 8%float
       (total_output_width desk_ms) 1080
     ++ [Print (InputDimensions 800 0)],
     Halt (Uncaught ZeroDivisionError)).
Proof.
  assert (3 <= Z.of_nat (List.length argv0))%Z as H1 by (simpl; lia).
  assert (Z.of_nat (List.length [4%float]) = (Z.of_nat (List.length desk) - 1)%Z)
    as H2 by reflexivity.
  assert (mapM physical_size desk = Ok desk_ps) as H3 by (vm_compute; reflexivity).
  assert (max_height_in desk_ps = Ok 8%float) as H4 by (vm_compute; reflexivity).
  assert (mapM scaled_size desk_ps = Ok desk_ms) as H5 by (vm_compute; reflexivity).
  assert (output_height desk_ms = Ok 1080%Z) as H6 by (vm_compute; reflexivity).
  assert (opened 800 0 (nth 1 argv0 EmptyString) = Ok (800%Z, 0%Z)) as H7
    by reflexivity.
  assert (of_int 800 = Ok 800%float) as H8 by (vm_compute; reflexivity).
  exact (conj H1 (conj H2 (conj H3 (conj H4 (conj H5 (conj H6 (conj H7 (conj H8
    (zero_height_image_stops argv0 desk [4%float] (opened 800 0) desk_ps 8%float
       desk_ms 1080 800 800%float H1 H2 H3 H4 H5 H6 H7 H8))))))))).
Defined.

(** The run on [desk] opened its input after the layout of [desk_layout]
    was computed. *)
Lemma image_opened_after_layout_desk :
  main argv0 desk [4%float] (opened 2000 800) = (desk_trace, Continue tt) /\
  In (ImageOpen "in.png") desk_trace /\
  (3 <= Z.of_nat (List.length argv0))%Z /\
  Z.of_nat (List.length [4%float]) = (Z.of_nat (List.length desk) - 1)%Z /\
  exists ps max_height ms out_height rest,
    mapM physical_size desk = Ok ps /\
    max_height_in ps = Ok max_height /\
    mapM scaled_size ps = Ok ms /\
    output_height ms = Ok out_height /\
    desk_trace = trace_to_open argv0 (total_width_in ps [4%float]) max_height
                   (total_output_width ms) out_height ++ rest.
Proof.
  pose proof desk_run as H1.
  assert (In (ImageOpen "in.png") desk_trace) as H2 by (simpl; auto 10).
  exact (conj H1 (conj H2
    (image_opened_after_layout argv0 desk [4%float] (opened 2000 800) desk_trace
       (Continue tt) "in.png" H1 H2))).
Defined.

(** The run on [desk] is the seven events of [desk_trace]. *)
Lemma completed_run_trace_desk :
  main argv0 desk [4%float] (opened 2000 800) = (desk_trace, Continue tt) /\
  exists ps max_height input_w input_h branch img,
    mapM physical_size desk = Ok ps /\
    max_height_in ps = Ok max_height /\
    opened 2000 800 (nth 1 argv0 EmptyString) = Ok (input_w, input_h) /\
    crop_to_layout input_w input_h (total_width_in ps [4%float]) max_height
      = Ok (branch, cropped img) /\
    desk_trace = completed_trace argv0 (total_width_in ps [4%float]) max_height
                   (fst (canvas img)) (snd (canvas img)) input_w input_h branch img.
Proof.
  pose proof desk_run as H1.
  exact (conj H1
    (completed_run_trace argv0 desk [4%float] (opened 2000 800) desk_trace H1)).
Defined.

(** The pastes of [desk]: 1920 and 1280 wide, side by side on a canvas
    3200 wide. *)
Lemma pastes_tile_canvas_width_desk :
  main argv0 desk [4%float] (opened 2000 800) = (desk_trace, Continue tt) /\
  In (ImageSave "out.png" desk_image) desk_trace /\
  (exists p, nth_error (pastes desk_image) 0 = Some p /\ fst (position p) = 0%Z) /\
  (forall k p p',
     nth_error (pastes desk_image) k = Some p ->
     nth_error (pastes desk_image) (S k) = Some p' ->
     fst (position p') = (fst (position p) + fst (resized p))%Z) /\
  (forall k p,
     nth_error (pastes desk_image) k = Some p ->
     nth_error (pastes desk_image) (S k) = None ->
     (fst (position p) + fst (resized p))%Z = fst (canvas desk_image)) /\
  ((forall p, In p (pastes desk_image) -> (0 <= fst (resized p))%Z) ->
   forall p, In p (pastes desk_image) ->
     (0 <= fst (position p))%Z /\
     (fst (position p) + fst (resized p) <= fst (canvas desk_image))%Z).
Proof.
  pose proof desk_run as H1.
  assert (In (ImageSave "out.png" desk_image) desk_trace) as H2
    by (simpl; auto 10).
  exact (conj H1 (conj H2
    (pastes_tile_canvas_width argv0 desk [4%float] (opened 2000 800) _ _ _ _ H1 H2))).
Defined.

(** The pastes of [desk]: 1080 and 960 high, on a canvas 1080 high. *)
Lemma pastes_stand_on_bottom_edge_desk :
  main argv0 desk [4%float] (opened 2000 800) = (desk_trace, Continue tt) /\
  In (ImageSave "out.png" desk_image) desk_trace /\
  (forall p, In p (pastes desk_image) ->
     (0 <= snd (position p))%Z /\
     (snd (position p) + snd (resized p))%Z = snd (canvas desk_image)) /\
  exists p, In p (pastes desk_image) /\
    snd (position p) = 0%Z /\ snd (resized p) = snd (canvas desk_image).
Proof.
  pose proof desk_run as H1.
  assert (In (ImageSave "out.png" desk_image) desk_trace) as H2
    by (simpl; auto 10).
  exact (conj H1 (conj H2
    (pastes_stand_on_bottom_edge argv0 desk [4%float] (opened 2000 800) _ _ _ _
       H1 H2))).
Defined.

(** The first paste of [desk] is cut from column 0 on. *)
Lemma first_region_starts_at_left_edge_desk :
  main argv0 desk [4%float] (opened 2000 800) = (desk_trace, Continue tt) /\
  In (ImageSave "out.png" desk_image) desk_trace /\
  exists first,
    nth_error (pastes desk_image) 0 = Some first /\ box_left (region first) = 0%Z.
Proof.
  pose proof desk_run as H1.
  assert (In (ImageSave "out.png" desk_image) desk_trace) as H2
    by (simpl; auto 10).
  exact (conj H1 (conj H2
    (first_region_starts_at_left_edge argv0 desk [4%float] (opened 2000 800)
       _ _ _ _ H1 H2))).
Defined.

(** An image of 2001 by 800 pixels for the layout of [desk]: 401 columns
    go, 200 on the left and 201 on the right. *)
Lemma crop_is_centred_desk :
  crop_to_layout 2001 800 16%float 8%float
    = Ok (CropHorizontal, (200, 0, 1800, 800)%Z) /\
  box_top (200, 0, 1800, 800)%Z = 0%Z /\
  box_bottom (200, 0, 1800, 800)%Z = 800%Z /\
  (0 <= (2001 - box_right (200, 0, 1800, 800)%Z) - box_left (200, 0, 1800, 800)%Z
   <= 1)%Z.
Proof.
  assert (crop_to_layout 2001 800 16%float 8%float
          = Ok (CropHorizontal, (200, 0, 1800, 800)%Z)) as H1
    by (vm_compute; reflexivity).
  exact (conj H1
    (crop_is_centred 2001 800 16%float 8%float CropHorizontal (200, 0, 1800, 800)%Z
       H1)).
Defined.

